(** * Atoms core: the [Atom] entity (atoms_core/entities/atom.py)

    A shallow embedding of the [Atom] class: construction, the manifest
    (from_dict / load / to_dict / save), command synthesis
    (generate_command and its three back ends), rename and the bind-mount
    setters and properties, with the theorems of its specification.

    Python values that reach an Atom from a manifest are dynamically typed,
    so the fields fed by [from_dict] hold a [pyval]; exceptions are results
    of a state-and-exception monad over the outside world (files, process
    environment, clock, temporary names). *)

From Stdlib Require Import Ascii.
From stdpp Require Import base option strings pretty list gmap.

Open Scope string_scope.
Open Scope list_scope.
Set Warnings "-register-all".

(** ** Python values *)

(** The values a manifest or a caller puts into an Atom: [None], [bool],
    [str], [list], [tuple] and [dict] with [str] keys (insertion ordered).
    Numbers are left out: the class never computes with one. *)
Inductive pyval : Type :=
  | PyNone
  | PyBool (b : bool)
  | PyStr (s : string)
  | PyList (l : list pyval)
  | PyTuple (l : list pyval)
  | PyDict (d : list (string * pyval)).

Definition pydict : Type := list (string * pyval).

(** [x is None] *)
Definition is_None (v : pyval) : bool :=
  match v with PyNone => true | _ => false end.

(** [bool(x)]: the truth value Python gives [x] in [if x], [x or y]. *)
Definition truthy (v : pyval) : bool :=
  match v with
  | PyNone => false
  | PyBool b => b
  | PyStr s => negb (String.eqb s "")
  | PyList l | PyTuple l => match l with [] => false | _ => true end
  | PyDict d => match d with [] => false | _ => true end
  end.

(** [x or y] *)
Definition py_or (x y : pyval) : pyval := if truthy x then x else y.

(** ** Exceptions and the module's names *)

Inductive exn : Type :=
  | NameError (name : string)
  | AttributeError (attr : string)
  | TypeError (what : string)
  | KeyError (key : string)
  | FileNotFoundError (path : string)
  | JSONDecodeError
  | Raised (cls : string) (args : list pyval).

Inductive result (A : Type) : Type :=
  | Ok (a : A)
  | Err (e : exn).
Arguments Ok {A} a.
Arguments Err {A} e.

(** The names the module binds at its top level: what lines 17-38 import,
    and the class itself.  A name used in a method body and bound neither
    here nor in the builtins raises [NameError] when it is evaluated. *)
Definition module_globals : list string :=
  [ "os"; "uuid"; "shutil"; "orjson"; "tempfile"; "datetime"; "importlib";
    "AtomsWrongAtomData"; "AtomsConfigFileNotFound";
    "AtomsHashMissmatchError";
    "AtomsFailToDownloadImage";
    "AtomsUnreachableRemote"; "AtomsMisconfiguredDistribution";
    "AtomsFailToCreateContainer";
    "AtomsPathsUtils"; "AtomsImageUtils"; "AtomsDistributionsUtils";
    "CommandUtils"; "FileUtils";
    "ProotWrapper"; "ServicectlWrapper"; "DistroboxWrapper";
    "Host";
    "Atom" ].

Definition is_bound (name : string) : bool :=
  existsb (String.eqb name) module_globals.

(** The exception that [raise cls(args)] ends with. *)
Definition raised_by (cls : string) (args : list pyval) : exn :=
  if is_bound cls then Raised cls args else NameError cls.

(** ** State and exceptions *)

Definition M (S A : Type) : Type := S → result A * S.

Definition ret {S A} (a : A) : M S A := λ s, (Ok a, s).

Definition bind {S A B} (m : M S A) (k : A → M S B) : M S B :=
  λ s, match m s with
       | (Ok a, s') => k a s'
       | (Err e, s') => (Err e, s')
       end.

Definition throw {S A} (e : exn) : M S A := λ s, (Err e, s).

Definition raise_ {S A} (cls : string) (args : list pyval) : M S A :=
  throw (raised_by cls args).

Definition gets {S A} (f : S → A) : M S A := λ s, (Ok (f s), s).

Definition modify {S} (f : S → S) : M S unit := λ s, (Ok tt, f s).

(** [try: m except FileNotFoundError: h] *)
Definition except_FileNotFoundError {S A} (m : M S A) (h : M S A) : M S A :=
  λ s, match m s with
       | (Err (FileNotFoundError _), s') => h s'
       | r => r
       end.

Definition of_result {S A} (r : result A) : M S A := λ s, (r, s).

Notation "x <- m ;; k" := (bind m (λ x, k))
  (at level 100, m at next level, right associativity).
Notation "m ;;; k" := (bind m (λ _, k))
  (at level 100, right associativity).

(** ** Strings *)

(** [str.isspace] on one character, for code points below 256. *)
Definition isspace (c : Ascii.ascii) : bool :=
  let n := Ascii.nat_of_ascii c in
  (((9 <=? n) && (n <=? 13)) || ((28 <=? n) && (n <=? 31)) || (n =? 32)
   || (n =? 133) || (n =? 160))%nat.

Fixpoint lstrip (s : string) : string :=
  match s with
  | String c s' => if isspace c then lstrip s' else s
  | EmptyString => EmptyString
  end.

Fixpoint rstrip (s : string) : string :=
  match s with
  | String c s' =>
      let r := rstrip s' in
      if isspace c && String.eqb r "" then "" else String c r
  | EmptyString => EmptyString
  end.

(** [str.strip()] *)
Definition strip (s : string) : string := rstrip (lstrip s).

(** [os.path.join(a, b)] of posixpath. *)
Definition startswith_sep (s : string) : bool :=
  match s with String c _ => Ascii.eqb c "/"%char | _ => false end.

Fixpoint endswith_sep (s : string) : bool :=
  match s with
  | String c EmptyString => Ascii.eqb c "/"%char
  | String _ s' => endswith_sep s'
  | EmptyString => false
  end.

Definition os_path_join (a b : string) : string :=
  if startswith_sep b then b
  else if String.eqb a "" || endswith_sep a then a +:+ b
  else a +:+ "/" +:+ b.

(** ** Dictionaries *)

Fixpoint dict_lookup (k : string) (d : pydict) : option pyval :=
  match d with
  | [] => None
  | (k', v) :: d' => if String.eqb k k' then Some v else dict_lookup k d'
  end.

(** [d.get(k)] *)
Definition dict_get (d : pydict) (k : string) : pyval :=
  default PyNone (dict_lookup k d).

(** [d[k]] *)
Definition dict_getitem (d : pydict) (k : string) : result pyval :=
  match dict_lookup k d with
  | Some v => Ok v
  | None => Err (KeyError k)
  end.

(** [k in d] *)
Definition dict_contains (k : string) (d : pydict) : bool :=
  match dict_lookup k d with Some _ => true | None => false end.

(** [d[k] = v] *)
Fixpoint dict_setitem (k : string) (v : pyval) (d : pydict) : pydict :=
  match d with
  | [] => [(k, v)]
  | (k', v') :: d' =>
      if String.eqb k k' then (k, v) :: d' else (k', v') :: dict_setitem k v d'
  end.

(** What iterating over a value yields, as in [mounts += x]. *)
Definition py_iter (v : pyval) : result (list pyval) :=
  match v with
  | PyList l | PyTuple l => Ok l
  | PyStr s => Ok (List.map (λ c, PyStr (String c "")) (String.list_ascii_of_string s))
  | PyDict d => Ok (List.map (λ kv, PyStr kv.1) d)
  | PyNone => Err (TypeError "'NoneType' object is not iterable")
  | PyBool _ => Err (TypeError "'bool' object is not iterable")
  end.

(** ** The outside world *)

(** orjson is taken up to the concrete syntax of JSON: [Json v] is a file
    whose text is the JSON document of the value [v], [Text s] a file whose
    text [s] is not a JSON document.  JSON has arrays only, so [dumps]
    writes a tuple as an array and [loads] reads every array as a list. *)
Inductive file : Type :=
  | Json (v : pyval)
  | Text (s : string).

Fixpoint to_json (v : pyval) : pyval :=
  match v with
  | PyList l | PyTuple l => PyList (List.map to_json l)
  | PyDict d => PyDict (List.map (λ kv, let '(k, x) := kv in (k, to_json x)) d)
  | _ => v
  end.

Definition orjson_dumps (v : pyval) : file := Json (to_json v).

Definition orjson_loads (f : file) : result pyval :=
  match f with
  | Json v => Ok v
  | Text _ => Err JSONDecodeError
  end.

Record World : Type := {
  files : gmap string file;       (* the file system, by path *)
  environ : gmap string string;   (* os.environ *)
  clock : nat → string;           (* readings of datetime.now().isoformat() *)
  ticks : nat;                    (* readings taken so far *)
  tmp_names : nat → string;       (* the names tempfile hands out *)
  tmp_used : nat
}.

(** [datetime.datetime.now().isoformat()] *)
Definition now : M World pyval :=
  λ w, (Ok (PyStr (clock w (ticks w))),
        {| files := files w; environ := environ w; clock := clock w;
           ticks := S (ticks w); tmp_names := tmp_names w;
           tmp_used := tmp_used w |}).

(** [with open(path, "wb") as f: f.write(data)]; the directory of [path]
    is taken to exist. *)
Definition open_write (path : string) (data : file) : M World unit :=
  modify (λ w, {| files := <[path := data]> (files w); environ := environ w;
                  clock := clock w; ticks := ticks w;
                  tmp_names := tmp_names w; tmp_used := tmp_used w |}).

(** [with open(path, "r") as f: f.read()] *)
Definition open_read (path : string) : M World file :=
  λ w, match files w !! path with
       | Some f => (Ok f, w)
       | None => (Err (FileNotFoundError path), w)
       end.

(** [os.environ[key]] *)
Definition os_environ (key : string) : M World string :=
  λ w, match environ w !! key with
       | Some v => (Ok v, w)
       | None => (Err (KeyError key), w)
       end.

(** [tempfile.NamedTemporaryFile(mode="w+", delete=False)], written once. *)
Definition NamedTemporaryFile (text : string) : M World string :=
  λ w, let f_name := tmp_names w (tmp_used w) in
       (Ok f_name,
        {| files := <[f_name := Text text]> (files w); environ := environ w;
           clock := clock w; ticks := ticks w;
           tmp_names := tmp_names w; tmp_used := S (tmp_used w) |}).

(** ** Collaborators

    The path resolver and the two command wrappers live outside atom.py;
    they are taken as pure functions of the arguments atom.py gives them. *)
Class Collaborators : Type := {
  Config : Type;
  (* AtomsPathsUtils.get_atom_path(config, relative_path) *)
  get_atom_path : Config → pyval → string;
  (* ProotWrapper.get_proot_command_for_chroot(fs_path, command, bind_mounts) *)
  get_proot_command_for_chroot : string → list string → list pyval → list string;
  (* DistroboxWrapper.get_distrobox_command_for_container(container_id, command) *)
  get_distrobox_command_for_container : pyval → list string → list string
}.

Inductive DistroboxWrapper : Type := DistroboxWrapper_.

Module Atom.
Section Atom.
Context `{Collaborators}.

Record AtomsInstance : Type := { config : Config }.

(** An Atom object.  [__distrobox_wrapper] is [None] while the attribute
    has not been set. *)
Record Atom : Type := {
  _instance : AtomsInstance;
  name : string;
  distribution_id : pyval;
  relative_path : pyval;
  creation_date : pyval;
  update_date : pyval;
  container_id : pyval;
  container_image : pyval;
  __system_shell : bool;
  bind_themes : pyval;
  bind_icons : pyval;
  bind_fonts : pyval;
  bind_extra_mounts : pyval;
  __distrobox_wrapper : option DistroboxWrapper
}.

(** [self.name = v] and the like. *)
Definition set_name (v : string) (self : Atom) : Atom :=
  {| _instance := _instance self; name := v;
     distribution_id := distribution_id self;
     relative_path := relative_path self;
     creation_date := creation_date self; update_date := update_date self;
     container_id := container_id self;
     container_image := container_image self;
     __system_shell := __system_shell self;
     bind_themes := bind_themes self; bind_icons := bind_icons self;
     bind_fonts := bind_fonts self;
     bind_extra_mounts := bind_extra_mounts self;
     __distrobox_wrapper := __distrobox_wrapper self |}.

Definition set_bind_themes_attr (v : pyval) (self : Atom) : Atom :=
  {| _instance := _instance self; name := name self;
     distribution_id := distribution_id self;
     relative_path := relative_path self;
     creation_date := creation_date self; update_date := update_date self;
     container_id := container_id self;
     container_image := container_image self;
     __system_shell := __system_shell self;
     bind_themes := v; bind_icons := bind_icons self;
     bind_fonts := bind_fonts self;
     bind_extra_mounts := bind_extra_mounts self;
     __distrobox_wrapper := __distrobox_wrapper self |}.

Definition set_bind_icons_attr (v : pyval) (self : Atom) : Atom :=
  {| _instance := _instance self; name := name self;
     distribution_id := distribution_id self;
     relative_path := relative_path self;
     creation_date := creation_date self; update_date := update_date self;
     container_id := container_id self;
     container_image := container_image self;
     __system_shell := __system_shell self;
     bind_themes := bind_themes self; bind_icons := v;
     bind_fonts := bind_fonts self;
     bind_extra_mounts := bind_extra_mounts self;
     __distrobox_wrapper := __distrobox_wrapper self |}.

Definition set_bind_fonts_attr (v : pyval) (self : Atom) : Atom :=
  {| _instance := _instance self; name := name self;
     distribution_id := distribution_id self;
     relative_path := relative_path self;
     creation_date := creation_date self; update_date := update_date self;
     container_id := container_id self;
     container_image := container_image self;
     __system_shell := __system_shell self;
     bind_themes := bind_themes self; bind_icons := bind_icons self;
     bind_fonts := v;
     bind_extra_mounts := bind_extra_mounts self;
     __distrobox_wrapper := __distrobox_wrapper self |}.

(** [name.strip()] on whatever [name] is. *)
Definition str_strip {S} (v : pyval) : M S string :=
  match v with
  | PyStr s => ret (strip s)
  | _ => throw (AttributeError "strip")
  end.

(** [Atom.__init__] (lines 48-85).  The defaults of the keyword arguments
    are [PyNone], [false] and [PyBool false]; callers pass them. *)
Definition __init__ (instance : AtomsInstance) (name : pyval)
    (distribution_id relative_path creation_date update_date : pyval)
    (container_id container_image : pyval) (system_shell : bool)
    (bind_themes bind_icons bind_fonts bind_extra_mounts : pyval)
  : M World Atom :=
  update_date <-
    (if is_None update_date && (truthy container_id || system_shell) then now
     else if is_None update_date then ret creation_date
     else ret update_date) ;;
  name <- str_strip name ;;
  ret {| _instance := instance; name := name;
         distribution_id := distribution_id;
         relative_path := relative_path;
         creation_date := creation_date; update_date := update_date;
         container_id := container_id; container_image := container_image;
         __system_shell := system_shell;
         bind_themes := bind_themes; bind_icons := bind_icons;
         bind_fonts := bind_fonts;
         bind_extra_mounts := py_or bind_extra_mounts (PyList []);
         __distrobox_wrapper :=
           if truthy container_id then Some DistroboxWrapper_ else None |}.

(** [Atom.get_extra_default_options] *)
Definition get_extra_default_options : pydict :=
  [ ("bindThemes", PyBool false);
    ("bindIcons", PyBool false);
    ("bindFonts", PyBool false);
    ("bindExtraMounts", PyList []) ].

(** The loop of lines 107-109: a default goes in where the key is not in
    [data]. *)
Definition fill_defaults (data : pydict) : pydict :=
  fold_left (λ data kv, let '(key, val) := kv in
                        if negb (dict_contains key data)
                        then dict_setitem key val data else data)
            get_extra_default_options data.

(** [Atom.from_dict] (lines 96-122).  [data] is whatever the caller has;
    anything but a dict has no [get]. *)
Definition from_dict (instance : AtomsInstance) (data : pyval) : M World Atom :=
  match data with
  | PyDict data =>
      if existsb is_None
           [ dict_get data "name";
             dict_get data "distributionId";
             dict_get data "creationDate";
             dict_get data "updateDate";
             dict_get data "relativePath" ]
      then raise_ "AtomsWrongAtomData" [PyDict data]
      else
        let data := fill_defaults data in
        name <- of_result (dict_getitem data "name") ;;
        distributionId <- of_result (dict_getitem data "distributionId") ;;
        relativePath <- of_result (dict_getitem data "relativePath") ;;
        creationDate <- of_result (dict_getitem data "creationDate") ;;
        updateDate <- of_result (dict_getitem data "updateDate") ;;
        bindThemes <- of_result (dict_getitem data "bindThemes") ;;
        bindIcons <- of_result (dict_getitem data "bindIcons") ;;
        bindFonts <- of_result (dict_getitem data "bindFonts") ;;
        bindExtraMounts <- of_result (dict_getitem data "bindExtraMounts") ;;
        __init__ instance name distributionId relativePath creationDate
                 updateDate PyNone PyNone false
                 bindThemes bindIcons bindFonts bindExtraMounts
  | _ => throw (AttributeError "get")
  end.

(** [Atom.load] (lines 124-133) *)
Definition load (instance : AtomsInstance) (relative_path : pyval) : M World Atom :=
  let path := os_path_join (get_atom_path (config instance) relative_path)
                           "atom.json" in
  data <- except_FileNotFoundError
            (text <- open_read path ;; of_result (orjson_loads text))
            (raise_ "AtomsConfigFileNotFound" [PyStr path]) ;;
  from_dict instance data.

(** [Atom.load_from_container] (lines 135-150) *)
Definition load_from_container (instance : AtomsInstance)
    (creation_date container_name container_image container_id : pyval)
  : M World Atom :=
  __init__ instance container_name PyNone PyNone creation_date PyNone
           container_id container_image false
           (PyBool false) (PyBool false) (PyBool false) PyNone.

(** [Atom.new_system_shell] (lines 289-291) *)
Definition new_system_shell (instance : AtomsInstance) : M World Atom :=
  __init__ instance (PyStr "system-shell") PyNone PyNone PyNone PyNone
           PyNone PyNone true
           (PyBool false) (PyBool false) (PyBool false) PyNone.

(** The properties [is_distrobox_container], [is_system_shell] (451-457). *)
Definition is_distrobox_container (self : Atom) : bool :=
  negb (is_None (container_id self)).

Definition is_system_shell (self : Atom) : bool := __system_shell self.

(** The properties [path], [fs_path], [root_path] (407-427). *)
Definition path (self : Atom) : string :=
  if is_distrobox_container self || __system_shell self then ""
  else get_atom_path (config (_instance self)) (relative_path self).

Definition fs_path (self : Atom) : string :=
  if is_distrobox_container self || __system_shell self then ""
  else os_path_join
         (get_atom_path (config (_instance self)) (relative_path self))
         "chroot".

Definition root_path (self : Atom) : string :=
  if is_distrobox_container self || __system_shell self then ""
  else os_path_join (fs_path self) "root".

(** The property [aid] (459-463). *)
Definition aid (self : Atom) : pyval :=
  if is_distrobox_container self || __system_shell self then container_id self
  else relative_path self.

Definition themes_mount : pyval :=
  PyTuple [PyStr "/usr/share/themes"; PyStr "/usr/share/themes"].
Definition icons_mount : pyval :=
  PyTuple [PyStr "/usr/share/icons"; PyStr "/usr/share/icons"].
Definition fonts_mount : pyval :=
  PyTuple [PyStr "/usr/share/fonts"; PyStr "/usr/share/fonts"].

(** The property [bind_mounts] (465-476). *)
Definition bind_mounts (self : Atom) : result (list pyval) :=
  let mounts := [] in
  let mounts :=
    if truthy (bind_themes self) then mounts ++ [themes_mount] else mounts in
  let mounts :=
    if truthy (bind_icons self) then mounts ++ [icons_mount] else mounts in
  let mounts :=
    if truthy (bind_fonts self) then mounts ++ [fonts_mount] else mounts in
  if truthy (bind_extra_mounts self) then
    match py_iter (bind_extra_mounts self) with
    | Ok extra => Ok (mounts ++ extra)
    | Err e => Err e
    end
  else Ok mounts.

(** [Atom.to_dict] (293-304) *)
Definition to_dict (self : Atom) : pyval :=
  PyDict [ ("name", PyStr (name self));
           ("distributionId", distribution_id self);
           ("relativePath", relative_path self);
           ("creationDate", creation_date self);
           ("updateDate", update_date self);
           ("bindThemes", bind_themes self);
           ("bindIcons", bind_icons self);
           ("bindFonts", bind_fonts self);
           ("bindExtraMounts", bind_extra_mounts self) ].

(** [Atom.save] (306-313) *)
Definition save (self : Atom) : M World unit :=
  if is_distrobox_container self || __system_shell self
  then raise_ "AtomsCannotSavePodmanContainers" []
  else
    let path := os_path_join (path self) "atom.json" in
    open_write path (orjson_dumps (to_dict self)).

(** The manifest of an Atom is the file atom.json of its directory;
    [with_file path f w] is the world [w] once [f] is written at [path]. *)
Definition manifest_path (instance : AtomsInstance) (relative_path : pyval)
  : string :=
  os_path_join (get_atom_path (config instance) relative_path) "atom.json".

Definition with_file (path : string) (f : file) (w : World) : World :=
  {| files := <[path := f]> (files w); environ := environ w;
     clock := clock w; ticks := ticks w;
     tmp_names := tmp_names w; tmp_used := tmp_used w |}.

(** [Atom.__generate_proot_command] (330-337) *)
Definition __generate_proot_command (self : Atom) (command : list string)
    (environment : option (list string))
  : M World (list string * list string * string) :=
  let environment := default [] environment in
  mounts <- of_result (bind_mounts self) ;;
  let _command := get_proot_command_for_chroot (fs_path self) command mounts in
  ret (_command, environment, root_path self).

(** [Atom.__generate_distrobox_command] (339-345) *)
Definition __generate_distrobox_command (self : Atom) (command : list string)
    (environment : option (list string))
  : M World (list string * list string * string) :=
  let environment := default [] environment in
  wrapper <- match __distrobox_wrapper self with
             | Some wrapper => ret wrapper
             | None => throw (AttributeError "_Atom__distrobox_wrapper")
             end ;;
  let _command :=
    get_distrobox_command_for_container (container_id self) command in
  ret (_command, environment, root_path self).

(** [Atom.__generate_system_shell_command] (347-349) *)
Definition __generate_system_shell_command (self : Atom)
  : M World (list string * list string * string) :=
  shell <- os_environ "SHELL" ;;
  ret ([shell], [], "/").

Definition dquote : string := String (Ascii.ascii_of_nat 34) EmptyString.

Definition launcher_script : string :=
  "#!/bin/bash
while true; do
    clear
    $@
    read -n 1 -s -r -p " +:+ dquote +:+
  "Press any [Key] to restart the Atom Console…" +:+ dquote +:+ ";
done
".

(** [Atom.__get_launcher_script] (351-361) *)
Definition __get_launcher_script (self : Atom) : M World string :=
  NamedTemporaryFile launcher_script.

(** [Atom.generate_command] (315-328) *)
Definition generate_command (self : Atom) (command : list string)
    (environment : option (list string)) (track_exit : bool)
  : M World (list string * list string * string) :=
  triple <-
    (if is_distrobox_container self
     then __generate_distrobox_command self command environment
     else if __system_shell self
     then __generate_system_shell_command self
     else __generate_proot_command self command environment) ;;
  let '(command, environment, working_directory) := triple in
  command <-
    (if track_exit
     then script <- __get_launcher_script self ;;
          ret (["sh"; script] ++ command)
     else ret command) ;;
  ret (command, environment, working_directory).

(** A method that assigns to attributes of [self] runs on the object and
    the world together. *)
Definition on_self {A} (m : Atom → M World A) : M (Atom * World) A :=
  λ s, let '(r, w) := m (fst s) (snd s) in (r, (fst s, w)).

Definition assign (f : Atom → Atom) : M (Atom * World) unit :=
  modify (λ s, (f (fst s), snd s)).

(** [Atom.rename] (386-390) *)
Definition rename (new_name : string) : M (Atom * World) unit :=
  self <- gets fst ;;
  if is_distrobox_container self || __system_shell self
  then raise_ "AtomsCannotRenamePodmanContainers" []
  else
    assign (set_name new_name) ;;;
    on_self save.

(** [Atom.set_bind_themes], [set_bind_icons], [set_bind_fonts] (395-405) *)
Definition set_bind_themes (status : bool) : M (Atom * World) unit :=
  assign (set_bind_themes_attr (PyBool status)) ;;;
  on_self save.

Definition set_bind_icons (status : bool) : M (Atom * World) unit :=
  assign (set_bind_icons_attr (PyBool status)) ;;;
  on_self save.

Definition set_bind_fonts (status : bool) : M (Atom * World) unit :=
  assign (set_bind_fonts_attr (PyBool status)) ;;;
  on_self save.

(** What lines 325-328 of [generate_command] do with the triple a back
    end gave. *)
Definition tracked (self : Atom) (track_exit : bool)
    (triple : list string * list string * string)
  : M World (list string * list string * string) :=
  let '(command, environment, working_directory) := triple in
  if track_exit
  then script <- __get_launcher_script self ;;
       ret (["sh"; script] ++ command, environment, working_directory)
  else ret (command, environment, working_directory).

(** *** The back end, as the specification words it

    Checked in this order: the container id, then the pass-through flag,
    else the chroot. *)
Inductive Backend : Type := Chroot | ManagedContainer | PassThroughShell.

Definition backend_of (self : Atom) : Backend :=
  if negb (is_None (container_id self)) then ManagedContainer
  else if __system_shell self then PassThroughShell
  else Chroot.

End Atom.
End Atom.

Import Atom.

(** *** Validity of a chroot Atom

    [chroot_as_specified] is the validity the specification words: a
    non-empty relativePath, no containerId, no pass-through flag.
    [persistable] is what a save followed by a load needs of the object. *)
Definition is_str (v : pyval) : bool :=
  match v with PyStr _ => true | _ => false end.

Definition is_bool (v : pyval) : bool :=
  match v with PyBool _ => true | _ => false end.

Fixpoint json_native (v : pyval) : bool :=
  match v with
  | PyTuple _ => false
  | PyList l => forallb json_native l
  | PyDict d => forallb (λ kv, let '(_, x) := kv in json_native x) d
  | _ => true
  end.

Definition is_json_list (v : pyval) : bool :=
  match v with PyList _ => json_native v | _ => false end.

Definition chroot_as_specified `{Collaborators} (self : Atom) : bool :=
  match relative_path self with
  | PyStr rp => negb (String.eqb rp "")
  | _ => false
  end
  && is_None (container_id self) && negb (__system_shell self).

Definition persistable `{Collaborators} (self : Atom) : bool :=
  is_None (container_id self) && negb (__system_shell self)
  && String.eqb (strip (name self)) (name self)
  && is_str (distribution_id self) && is_str (relative_path self)
  && is_str (creation_date self) && is_str (update_date self)
  && is_bool (bind_themes self) && is_bool (bind_icons self)
  && is_bool (bind_fonts self)
  && is_json_list (bind_extra_mounts self).

(** The invariant [__init__] sets up between [container_id] and the
    wrapper attribute; no method assigns to either afterwards. *)
Definition constructed `{Collaborators} (self : Atom) : Prop :=
  __distrobox_wrapper self =
    if truthy (container_id self) then Some DistroboxWrapper_ else None.

(** ** Stand-ins for worked examples

    A path resolver and two wrappers of the usual shape, an instance whose
    atoms live under /atoms, and a world with no file yet. *)
Module Sample.

#[export] Instance collaborators : Collaborators := {|
  Config := string;
  get_atom_path := λ atoms_path relative_path,
    match relative_path with
    | PyStr rp => os_path_join atoms_path rp
    | _ => atoms_path
    end;
  get_proot_command_for_chroot := λ fs_path command bind_mounts,
    ["proot"; "-0"; "-r"; fs_path] ++ command;
  get_distrobox_command_for_container := λ container_id command,
    match container_id with
    | PyStr cid => ["distrobox"; "enter"; cid; "--"] ++ command
    | _ => ["distrobox"; "enter"; "--"] ++ command
    end
|}.

Definition instance : AtomsInstance := {| config := "/atoms" |}.

Definition world : World :=
  {| files := ∅;
     environ := {[ "SHELL" := "/bin/sh" ]};
     clock := λ _, "2022-09-01T10:00:00.000000";
     ticks := 0;
     tmp_names := λ n, "/tmp/tmp" +:+ pretty n;
     tmp_used := 0 |}.

(** Atom(instance, "box", creation_date=..., container_id="c0ffee",
    container_image="alpine") *)
Definition container : Atom :=
  {| _instance := instance; name := "box";
     distribution_id := PyNone; relative_path := PyNone;
     creation_date := PyStr "2022-09-01T09:00:00.000000";
     update_date := PyStr "2022-09-01T10:00:00.000000";
     container_id := PyStr "c0ffee"; container_image := PyStr "alpine";
     __system_shell := false;
     bind_themes := PyBool false; bind_icons := PyBool false;
     bind_fonts := PyBool false; bind_extra_mounts := PyList [];
     __distrobox_wrapper := Some DistroboxWrapper_ |}.

(** Atom(instance, "system-shell", system_shell=True) *)
Definition system_shell : Atom :=
  {| _instance := instance; name := "system-shell";
     distribution_id := PyNone; relative_path := PyNone;
     creation_date := PyNone;
     update_date := PyStr "2022-09-01T10:00:00.000000";
     container_id := PyNone; container_image := PyNone;
     __system_shell := true;
     bind_themes := PyBool false; bind_icons := PyBool false;
     bind_fonts := PyBool false; bind_extra_mounts := PyList [];
     __distrobox_wrapper := None |}.

(** Atom(instance, " test ", "alpine", "1f0e.atom", "2022-09-01T09:00:00.000000",
    bind_themes=True, bind_extra_mounts=[["/srv", "/mnt"]]) *)
Definition chroot : Atom :=
  {| _instance := instance; name := "test";
     distribution_id := PyStr "alpine"; relative_path := PyStr "1f0e.atom";
     creation_date := PyStr "2022-09-01T09:00:00.000000";
     update_date := PyStr "2022-09-01T09:00:00.000000";
     container_id := PyNone; container_image := PyNone;
     __system_shell := false;
     bind_themes := PyBool true; bind_icons := PyBool false;
     bind_fonts := PyBool false;
     bind_extra_mounts := PyList [PyList [PyStr "/srv"; PyStr "/mnt"]];
     __distrobox_wrapper := None |}.

(** Atom(instance, "bare", relative_path="bare.atom"): every other
    argument at its default. *)
Definition bare : Atom :=
  {| _instance := instance; name := "bare";
     distribution_id := PyNone; relative_path := PyStr "bare.atom";
     creation_date := PyNone; update_date := PyNone;
     container_id := PyNone; container_image := PyNone;
     __system_shell := false;
     bind_themes := PyBool false; bind_icons := PyBool false;
     bind_fonts := PyBool false; bind_extra_mounts := PyList [];
     __distrobox_wrapper := None |}.

(** Atom(instance, "pairs", "alpine", "9c2d.atom", "2022-09-01T09:00:00.000000",
    bind_extra_mounts=[("/srv", "/mnt")]): the extra mount is a tuple. *)
Definition pairs : Atom :=
  {| _instance := instance; name := "pairs";
     distribution_id := PyStr "alpine"; relative_path := PyStr "9c2d.atom";
     creation_date := PyStr "2022-09-01T09:00:00.000000";
     update_date := PyStr "2022-09-01T09:00:00.000000";
     container_id := PyNone; container_image := PyNone;
     __system_shell := false;
     bind_themes := PyBool false; bind_icons := PyBool false;
     bind_fonts := PyBool false;
     bind_extra_mounts := PyList [PyTuple [PyStr "/srv"; PyStr "/mnt"]];
     __distrobox_wrapper := None |}.

(** A manifest of the time before the bind-mount fields. *)
Definition old_manifest : pydict :=
  [ ("name", PyStr "test"); ("distributionId", PyStr "alpine");
    ("relativePath", PyStr "1f0e.atom");
    ("creationDate", PyStr "2022-09-01T09:00:00.000000");
    ("updateDate", PyStr "2022-09-01T09:30:00.000000") ].

End Sample.

(** ** The rest of the class

    What the remaining methods call outside atom.py has effects: on the
    world, and on what lies beyond it (containers, processes, directories,
    the network), here [Outside].  Each such call is an action that may
    raise. *)
Class Effects : Type := {
  Outside : Type;
  Proc : Type;
  (* DistroboxWrapper.destroy_container(container_id, name) *)
  destroy_container : pyval → string → M (World * Outside) unit;
  (* DistroboxWrapper.stop_container(container_id) *)
  stop_container : pyval → M (World * Outside) unit;
  (* DistroboxWrapper.new_container(name, container_image) *)
  distrobox_new_container : pyval → pyval → M (World * Outside) pyval;
  (* FileUtils.native_rm(path) *)
  native_rm : string → M (World * Outside) unit;
  (* ProcUtils.find_proc_by_cmdline(relative_path), pid.kill() *)
  find_proc_by_cmdline : pyval → M (World * Outside) (list Proc);
  proc_kill : Proc → M (World * Outside) unit;
  (* os.makedirs(path, exist_ok=...) *)
  os_makedirs : string → bool → M (World * Outside) unit;
  (* ServicectlWrapper.install_to_path(path) *)
  install_to_path : string → M (World * Outside) unit;
  (* the text of the JSON document of a value, and the file a text makes *)
  json_text : pyval → string;
  text_file : string → file;
  (* str(e) of a raised AtomsMisconfiguredDistribution *)
  misconfigured_str : list pyval → string
}.

(** A callable handed in as a callback, by its name. *)
Definition callable : Type := string.

(** What a callback is called with: a stage (0 or 1) or a message. *)
Inductive posted_arg : Type :=
  | Stage (n : nat)
  | Message (s : string).

(** A distribution, as [Atom.new] uses one. *)
Module AtomDistribution.
Record t `{Effects} : Type := {
  distribution_id : string;
  post_unpack : string → M (World * Outside) unit
}.
End AtomDistribution.

(** What a save followed by a load needs of the object, the name apart. *)
Definition storable `{Collaborators} (self : Atom) : bool :=
  is_None (container_id self) && negb (__system_shell self)
  && is_str (distribution_id self) && is_str (relative_path self)
  && is_str (creation_date self) && is_str (update_date self)
  && is_bool (bind_themes self) && is_bool (bind_icons self)
  && is_bool (bind_fonts self)
  && is_json_list (bind_extra_mounts self).

(** The world once the launcher script is in a temporary file of its
    own. *)
Definition with_launcher (w : World) : World :=
  {| files := <[tmp_names w (tmp_used w) := Text launcher_script]> (files w);
     environ := environ w; clock := clock w; ticks := ticks w;
     tmp_names := tmp_names w; tmp_used := S (tmp_used w) |}.

(** The five fields [from_dict] asks for. *)
Definition required_fields : list string :=
  ["name"; "distributionId"; "creationDate"; "updateDate"; "relativePath"].

Module Workflow.
Section Workflow.
Context `{Collaborators} `{Effects}.

(** An image as AtomsImageUtils.get_image gives it. *)
Record Image : Type := { unpack : string → M (World * Outside) unit }.

(** The host of a creation workflow: the world, what lies beyond it, the
    calls handed to the main context through
    instance.client_bridge.exec_on_main, oldest first, and the identifiers
    uuid.uuid4 gives. *)
Record Host : Type := {
  world : World;
  outside : Outside;
  main_queue : list (callable * posted_arg);
  uuid4s : nat → string;
  uuid_used : nat
}.

Definition in_world {O A} (m : M World A) : M (World * O) A :=
  λ s, let '(r, w) := m (fst s) in (r, (w, snd s)).

Definition in_env {A} (m : M (World * Outside) A) : M Host A :=
  λ h, let '(r, s) := m (world h, outside h) in
       (r, {| world := fst s; outside := snd s; main_queue := main_queue h;
              uuid4s := uuid4s h; uuid_used := uuid_used h |}).

(** Modelled from the spec: instance.client_bridge.exec_on_main, which
    hands the call over to the main context. *)
Definition exec_on_main (fn : callable) (arg : posted_arg) : M Host unit :=
  modify (λ h, {| world := world h; outside := outside h;
                  main_queue := main_queue h ++ [(fn, arg)];
                  uuid4s := uuid4s h; uuid_used := uuid_used h |}).

(** [if fn: instance.client_bridge.exec_on_main(fn, arg)] *)
Definition if_fn (fn : option callable) (arg : posted_arg) : M Host unit :=
  match fn with
  | Some fn => exec_on_main fn arg
  | None => ret ()
  end.

(** [str(uuid.uuid4())] *)
Definition uuid4 : M Host string :=
  λ h, (Ok (uuid4s h (uuid_used h)),
        {| world := world h; outside := outside h;
           main_queue := main_queue h;
           uuid4s := uuid4s h; uuid_used := S (uuid_used h) |}).

(** [try: m except cls: handler] for the classes [handler] knows. *)
Definition try_except {S A} (m : M S A)
    (handler : string → list pyval → option (M S A)) : M S A :=
  λ s, match m s with
       | (Err (Raised cls args), s') =>
           match handler cls args with
           | Some h => h s'
           | None => (Err (Raised cls args), s')
           end
       | r => r
       end.

(** [str.replace(old, new)] for a non-empty [old]: occurrences are taken
    from the left and do not overlap; [skip] characters of a replaced
    occurrence are still to pass. *)
Fixpoint replace_from (old new : string) (skip : nat) (s : string) : string :=
  match s with
  | EmptyString => EmptyString
  | String c s' =>
      match skip with
      | S k => replace_from old new k s'
      | O =>
          if String.prefix old s
          then new +:+ replace_from old new (String.length old - 1) s'
          else String c (replace_from old new 0 s')
      end
  end.

Definition str_replace (old new s : string) : string :=
  replace_from old new 0 s.

(** [with open(path, "r") as f: f.read()] and
    [with open(path, "w") as f: f.write(text)] on a text file. *)
Definition read_text (path : string) : M World string :=
  f <- open_read path ;;
  ret match f with Text s => s | Json v => json_text v end.

Definition write_text (path : string) (text : string) : M World unit :=
  open_write path (text_file text).

(** AtomsImageUtils.get_image(instance, distribution, architecture,
    release, download_fn): it has the instance and the callback, so it acts
    on the whole host. *)
Class ImageUtils : Type := {
  get_image : AtomsInstance → AtomDistribution.t → pyval → pyval →
              option callable → M Host Image
}.
Context `{ImageUtils}.

(** Lines 231-239 of [Atom.new]: the workaround for ubuntu. *)
Definition trust_sources (chroot_path : string) : M World unit :=
  let sources_list := os_path_join chroot_path "etc/apt/sources.list" in
  sources <- read_text sources_list ;;
  let sources := str_replace "deb " "deb [trusted=yes] " sources in
  let sources := str_replace "deb-src " "deb-src [trusted=yes] " sources in
  write_text sources_list sources.

(** [Atom.new] (lines 152-245).  [None] is the bare [return]. *)
Definition new (instance : AtomsInstance) (name : pyval)
    (distribution : AtomDistribution.t) (architecture release : pyval)
    (download_fn config_fn unpack_fn finalizing_fn error_fn : option callable)
  : M Host (option Atom) :=
  got <- try_except
           (image <- get_image instance distribution architecture release
                               download_fn ;;
            ret (inl image))
           (λ cls args,
              if String.eqb cls "AtomsHashMissmatchError" then
                Some (if_fn error_fn (Message "Hash missmatch.") ;;;
                      ret (inr None))
              else if String.eqb cls "AtomsFailToDownloadImage" then
                Some (if_fn error_fn
                        (Message "Fail to download image, it might be a temporary problem.") ;;;
                      ret (inr None))
              else if String.eqb cls "AtomsUnreachableRemote" then
                Some (if_fn error_fn
                        (Message "Unreachable remote, it might be a temporary problem.") ;;;
                      ret (inr None))
              else if String.eqb cls "AtomsMisconfiguredDistribution" then
                Some (if_fn error_fn (Message (misconfigured_str args)) ;;;
                      ret (inr None))
              else None) ;;
  match got with
  | inr returned => ret returned
  | inl image =>
      if_fn config_fn (Stage 0) ;;;
      date <- in_env (in_world now) ;;
      uuid <- uuid4 ;;
      let relative_path := uuid +:+ ".atom" in
      let atom_path := get_atom_path (config instance) (PyStr relative_path) in
      let chroot_path := os_path_join atom_path "chroot" in
      let root_path := os_path_join chroot_path "root" in
      atom <- in_env (in_world
                (__init__ instance name (PyStr (AtomDistribution.distribution_id distribution))
                          (PyStr relative_path) date PyNone PyNone PyNone false
                          (PyBool false) (PyBool false) (PyBool false)
                          (PyList []))) ;;
      in_env (os_makedirs chroot_path false) ;;;
      if_fn config_fn (Stage 1) ;;;
      if_fn unpack_fn (Stage 0) ;;;
      in_env (unpack image chroot_path) ;;;
      in_env (os_makedirs root_path true) ;;;
      if_fn unpack_fn (Stage 1) ;;;
      in_env (install_to_path (os_path_join (fs_path atom) "usr/local/bin")) ;;;
      if_fn finalizing_fn (Stage 0) ;;;
      in_env (AtomDistribution.post_unpack distribution chroot_path) ;;;
      (if String.eqb (AtomDistribution.distribution_id distribution) "ubuntu"
       then in_env (in_world (trust_sources chroot_path))
       else ret ()) ;;;
      in_env (in_world (save atom)) ;;;
      if_fn finalizing_fn (Stage 1) ;;;
      ret (Some atom)
  end.

(** [Atom.new_container] (lines 247-287) *)
Definition new_container (instance : AtomsInstance)
    (name container_image : pyval)
    (distrobox_fn finalizing_fn error_fn : option callable)
  : M Host (option Atom) :=
  if_fn distrobox_fn (Stage 0) ;;;
  got <- try_except
           (container_id <- in_env (distrobox_new_container name container_image) ;;
            ret (inl container_id))
           (λ cls args,
              if String.eqb cls "AtomsFailToCreateContainer" then
                Some (if_fn error_fn
                        (Message "Fail to create container, it might be a temporary problem or a wrong image was requested.") ;;;
                      ret (inr None))
              else None) ;;
  match got with
  | inr returned => ret returned
  | inl container_id =>
      if_fn distrobox_fn (Stage 1) ;;;
      if_fn finalizing_fn (Stage 0) ;;;
      date <- in_env (in_world now) ;;
      atom <- in_env (in_world
                (load_from_container instance date name container_image
                                     container_id)) ;;
      if_fn finalizing_fn (Stage 1) ;;;
      ret (Some atom)
  end.

(** [self.__distrobox_wrapper], an attribute that may not be there. *)
Definition the_distrobox_wrapper {S} (self : Atom) : M S DistroboxWrapper :=
  match __distrobox_wrapper self with
  | Some wrapper => ret wrapper
  | None => throw (AttributeError "_Atom__distrobox_wrapper")
  end.

(** A name of the module's top level, looked up when the line runs. *)
Definition global_name {S} (name : string) : M S unit :=
  if is_bound name then ret () else throw (NameError name).

Fixpoint for_each {S A} (l : list A) (body : A → M S unit) : M S unit :=
  match l with
  | [] => ret ()
  | x :: l' => body x ;;; for_each l' body
  end.

(** [Atom.destroy] (lines 363-375); shutil.which("rm") is looked up and
    not used. *)
Definition destroy (self : Atom) : M (World * Outside) unit :=
  if is_distrobox_container self || __system_shell self
  then wrapper <- the_distrobox_wrapper self ;;
       destroy_container (container_id self) (name self)
  else native_rm (path self).

(** [Atom.kill] (lines 377-384) *)
Definition kill (self : Atom) : M (World * Outside) unit :=
  if is_distrobox_container self || __system_shell self
  then wrapper <- the_distrobox_wrapper self ;;
       stop_container (container_id self)
  else
    global_name "ProcUtils" ;;;
    pids <- find_proc_by_cmdline (relative_path self) ;;
    for_each pids proc_kill.

(** [Atom.stop_distrobox_container] (lines 392-393) *)
Definition stop_distrobox_container (self : Atom) : M (World * Outside) unit :=
  wrapper <- the_distrobox_wrapper self ;;
  stop_container (container_id self).

(** The properties [enter_command], [untracked_enter_command] (437-443). *)
Definition enter_command (self : Atom)
  : M World (list string * list string * string) :=
  generate_command self [] None true.

Definition untracked_enter_command (self : Atom)
  : M World (list string * list string * string) :=
  generate_command self [] None false.

(** The host with another world, and with more calls handed over; the
    calls an optional callback makes. *)
Definition set_world (w : World) (h : Host) : Host :=
  {| world := w; outside := outside h; main_queue := main_queue h;
     uuid4s := uuid4s h; uuid_used := uuid_used h |}.

Definition enqueue (l : list (callable * posted_arg)) (h : Host) : Host :=
  {| world := world h; outside := outside h;
     main_queue := main_queue h ++ l;
     uuid4s := uuid4s h; uuid_used := uuid_used h |}.

Definition calls (fn : option callable) (arg : posted_arg)
  : list (callable * posted_arg) :=
  match fn with
  | Some fn => [(fn, arg)]
  | None => []
  end.

End Workflow.
End Workflow.

Import Workflow.

(** ** Stand-ins for the effects

    The outside is a log of what was asked of it.  Images unpack a
    sources list; there is no image for the release offline. *)
Module SampleHost.

#[export] Instance effects : Effects := {|
  Outside := list string;
  Proc := nat;
  destroy_container := λ container_id name s,
    (Ok (), (fst s, snd s ++ ["destroy " +:+ name]));
  stop_container := λ container_id s, (Ok (), (fst s, snd s ++ ["stop"]));
  distrobox_new_container := λ name image s,
    match image with
    | PyStr i =>
        if String.eqb i "alpine"
        then (Ok (PyStr "c0ffee"), (fst s, snd s ++ ["create"]))
        else (Err (Raised "AtomsFailToCreateContainer" []), s)
    | _ => (Err (TypeError "image"), s)
    end;
  native_rm := λ path s, (Ok (), (fst s, snd s ++ ["rm " +:+ path]));
  find_proc_by_cmdline := λ _ s, (Ok [], s);
  proc_kill := λ _ s, (Ok (), s);
  os_makedirs := λ path _ s, (Ok (), (fst s, snd s ++ ["mkdir " +:+ path]));
  install_to_path := λ path s, (Ok (), (fst s, snd s ++ ["install " +:+ path]));
  json_text := λ _, "{}";
  text_file := Text;
  misconfigured_str := λ args,
    match args with [PyStr m] => m | _ => "" end
|}.

Definition unpack_sources (chroot_path : string) (s : World * list string)
  : result unit * (World * list string) :=
  (Ok (),
   (with_file (os_path_join chroot_path "etc/apt/sources.list")
              (Text "deb http://archive.ubuntu.com/ubuntu jammy main")
              (fst s),
    snd s ++ ["unpack " +:+ chroot_path])).

Definition image : Image := {| unpack := unpack_sources |}.

#[export] Instance image_utils : ImageUtils (H := Sample.collaborators) := {|
  get_image := λ inst distribution architecture release download_fn h,
    match release with
    | PyStr r =>
        if String.eqb r "offline"
        then (Err (Raised "AtomsUnreachableRemote" []), h)
        else (Ok image, h)
    | _ => (Err (Raised "AtomsMisconfiguredDistribution"
                        [PyStr "no release"]), h)
    end
|}.

Definition ubuntu : AtomDistribution.t :=
  {| AtomDistribution.distribution_id := "ubuntu";
     AtomDistribution.post_unpack := λ _ s, (Ok (), s) |}.

Definition host : Host :=
  {| world := Sample.world; outside := [];
     main_queue := [];
     uuid4s := λ n, "7d1a-" +:+ pretty n; uuid_used := 0 |}.

End SampleHost.

(** * Properties *)

(** ** The sample objects are what the constructor builds *)

Example init_chroot :
  __init__ Sample.instance (PyStr " test ") (PyStr "alpine")
           (PyStr "1f0e.atom") (PyStr "2022-09-01T09:00:00.000000") PyNone
           PyNone PyNone false (PyBool true) (PyBool false) (PyBool false)
           (PyList [PyList [PyStr "/srv"; PyStr "/mnt"]]) Sample.world
  = (Ok Sample.chroot, Sample.world).
Proof. reflexivity. Qed.

Example init_bare :
  __init__ Sample.instance (PyStr "bare") PyNone (PyStr "bare.atom") PyNone
           PyNone PyNone PyNone false (PyBool false) (PyBool false)
           (PyBool false) PyNone Sample.world
  = (Ok Sample.bare, Sample.world).
Proof. reflexivity. Qed.

Example init_pairs :
  __init__ Sample.instance (PyStr "pairs") (PyStr "alpine")
           (PyStr "9c2d.atom") (PyStr "2022-09-01T09:00:00.000000") PyNone
           PyNone PyNone false (PyBool false) (PyBool false) (PyBool false)
           (PyList [PyTuple [PyStr "/srv"; PyStr "/mnt"]]) Sample.world
  = (Ok Sample.pairs, Sample.world).
Proof. reflexivity. Qed.

Example init_container :
  load_from_container Sample.instance (PyStr "2022-09-01T09:00:00.000000")
    (PyStr "box") (PyStr "alpine") (PyStr "c0ffee") Sample.world
  = (Ok Sample.container,
     {| files := ∅; environ := environ Sample.world;
        clock := clock Sample.world; ticks := 1;
        tmp_names := tmp_names Sample.world; tmp_used := 0 |}).
Proof. reflexivity. Qed.

Example init_system_shell :
  ∃ w, new_system_shell Sample.instance Sample.world
       = (Ok Sample.system_shell, w).
Proof. eexists. reflexivity. Qed.

Example save_load_chroot :
  ∃ w1, save Sample.chroot Sample.world = (Ok (), w1) ∧
        load Sample.instance (PyStr "1f0e.atom") w1 = (Ok Sample.chroot, w1).
Proof. eexists. split; vm_compute; reflexivity. Qed.

(** ** Trimming *)

Lemma lstrip_idem s : lstrip (lstrip s) = lstrip s.
Proof.
  induction s as [|c s IH]; simpl; [done|].
  destruct (isspace c) eqn:Hc; [done|]. simpl. by rewrite Hc.
Qed.

Lemma rstrip_idem s : rstrip (rstrip s) = rstrip s.
Proof.
  induction s as [|c s IH]; simpl; [done|].
  destruct (isspace c) eqn:Hc; simpl.
  - destruct (String.eqb (rstrip s) "") eqn:He; simpl; [done|].
    by rewrite IH, Hc, He.
  - by rewrite IH, Hc.
Qed.

(** Trimming on the right leaves a first character that is no space. *)
Lemma lstrip_rstrip s : lstrip s = s → lstrip (rstrip s) = rstrip s.
Proof.
  destruct s as [|c s]; simpl; [done|].
  destruct (isspace c) eqn:Hc; simpl.
  - intros Hs. exfalso.
    assert (Hlen : ∀ t, (String.length (lstrip t) ≤ String.length t)%nat).
    { induction t as [|c' t IH]; simpl; [lia|].
      destruct (isspace c'); simpl; lia. }
    specialize (Hlen s). rewrite Hs in Hlen. simpl in Hlen. lia.
  - intros _. by rewrite Hc.
Qed.

Lemma strip_idem s : strip (strip s) = strip s.
Proof.
  unfold strip.
  rewrite (lstrip_rstrip (lstrip s)) by apply lstrip_idem.
  apply rstrip_idem.
Qed.

Lemma append_String c a b : String c a +:+ b = String c (a +:+ b).
Proof. reflexivity. Qed.

Lemma append_empty b : "" +:+ b = b.
Proof. reflexivity. Qed.

(** What [strip] removes is white space, before and after. *)
Lemma lstrip_prefix s :
  ∃ pre, s = pre +:+ lstrip s ∧
         forallb isspace (String.list_ascii_of_string pre) = true.
Proof.
  induction s as [|c s [pre [Hs Hpre]]]; simpl.
  - by exists "".
  - destruct (isspace c) eqn:Hc.
    + exists (String c pre). rewrite append_String. simpl.
      split; [by f_equal | by rewrite Hc].
    + by exists "".
Qed.

Lemma rstrip_suffix s :
  ∃ post, s = rstrip s +:+ post ∧
          forallb isspace (String.list_ascii_of_string post) = true.
Proof.
  induction s as [|c s [post [Hs Hpost]]]; simpl.
  - by exists "".
  - destruct (isspace c && String.eqb (rstrip s) "") eqn:Hc.
    + apply andb_true_iff in Hc as [Hc He].
      apply String.eqb_eq in He. rewrite He, append_empty in Hs.
      exists (String c post). rewrite append_empty.
      split; [by f_equal | simpl; by rewrite Hc].
    + exists post. rewrite append_String. split; [by f_equal | done].
Qed.

Lemma strip_middle s :
  ∃ pre post, s = pre +:+ strip s +:+ post ∧
    forallb isspace (String.list_ascii_of_string pre) = true ∧
    forallb isspace (String.list_ascii_of_string post) = true.
Proof.
  destruct (lstrip_prefix s) as [pre [Hs Hpre]].
  destruct (rstrip_suffix (lstrip s)) as [post [Hl Hpost]].
  exists pre, post. unfold strip. by rewrite <- Hl.
Qed.

Example strip_test : strip " test " = "test".
Proof. reflexivity. Qed.

Example strip_tabs_newlines :
  strip (String (Ascii.ascii_of_nat 9) "a b" +:+ String (Ascii.ascii_of_nat 10) "")
  = "a b".
Proof. reflexivity. Qed.

Section Construction.
Context `{Collaborators}.

Implicit Types (self a : Atom) (w : World) (inst : AtomsInstance).

(** ** Construction *)

(** What [__init__] returns, when it returns. *)
Lemma init_inv inst nm d rp cd ud cid img ss bt bi bf bx w a w' :
  __init__ inst nm d rp cd ud cid img ss bt bi bf bx w = (Ok a, w') →
  ∃ n, nm = PyStr n ∧ name a = strip n ∧ _instance a = inst ∧
       distribution_id a = d ∧ relative_path a = rp ∧
       creation_date a = cd ∧
       (is_None ud = false → update_date a = ud ∧ w' = w) ∧
       container_id a = cid ∧ container_image a = img ∧
       __system_shell a = ss ∧
       bind_themes a = bt ∧ bind_icons a = bi ∧ bind_fonts a = bf ∧
       bind_extra_mounts a = py_or bx (PyList []) ∧
       constructed a.
Proof.
  unfold __init__, bind, str_strip, now, ret, throw.
  destruct (is_None ud && (truthy cid || ss)) eqn:Hnow;
    [|destruct (is_None ud) eqn:Hud];
    (destruct nm as [| |n| | |]; intros [= <- <-]);
    exists n; repeat split; try done.
  all: apply andb_true_iff in Hnow as [Hud _]; congruence.
Qed.

(** With a [str] for a name, [__init__] returns an Atom. *)
Lemma init_total inst n d rp cd ud cid img ss bt bi bf bx w :
  ∃ a w', __init__ inst (PyStr n) d rp cd ud cid img ss bt bi bf bx w
          = (Ok a, w').
Proof.
  unfold __init__, bind, str_strip, now, ret.
  destruct (is_None ud && (truthy cid || ss)); [|destruct (is_None ud)];
    eauto.
Qed.

(** C4, as the code has it: no name is rejected.  For every input name
    construction goes through and the stored name is the input with its
    leading and trailing white space removed, which is the empty string
    when the input is empty or all white space. *)
Theorem init_stores_trimmed_name inst n d rp cd ud cid img ss bt bi bf bx w :
  ∃ a w', __init__ inst (PyStr n) d rp cd ud cid img ss bt bi bf bx w
          = (Ok a, w')
          ∧ name a = strip n
          ∧ strip (name a) = name a
          ∧ ∃ pre post, n = pre +:+ name a +:+ post
              ∧ forallb isspace (String.list_ascii_of_string pre) = true
              ∧ forallb isspace (String.list_ascii_of_string post) = true.
Proof.
  destruct (init_total inst n d rp cd ud cid img ss bt bi bf bx w)
    as (a & w' & Hinit).
  exists a, w'. split; [done|].
  apply init_inv in Hinit as (n' & [= <-] & Hname & _).
  rewrite Hname. split; [done|]. split; [apply strip_idem|].
  apply strip_middle.
Qed.

End Construction.

(** C4, as the specification words it, fails: a name of two spaces trims to
    the empty string, and the constructor returns an Atom named by the
    empty string. *)
Lemma init_accepts_blank_name :
  strip "  " = "" ∧
  ∃ a, __init__ Sample.instance (PyStr "  ") (PyStr "alpine")
         (PyStr "1f0e.atom") (PyStr "2022-09-01T09:00:00.000000") PyNone
         PyNone PyNone false (PyBool false) (PyBool false) (PyBool false)
         PyNone Sample.world
       = (Ok a, Sample.world) ∧ name a = "".
Proof. split; [reflexivity|]. eexists. split; reflexivity. Qed.

(** ** Back ends and command synthesis *)

Section Backends.
Context `{Collaborators}.

Implicit Types (self a : Atom) (w : World) (inst : AtomsInstance).

(** [generate_command] picks its branch by the back end of the object. *)
Lemma generate_command_by_backend a cmd env te w :
  generate_command a cmd env te w =
  bind match backend_of a with
       | ManagedContainer => __generate_distrobox_command a cmd env
       | PassThroughShell => __generate_system_shell_command a
       | Chroot => __generate_proot_command a cmd env
       end
       (tracked a te) w.
Proof.
  unfold generate_command, backend_of, is_distrobox_container, bind.
  destruct (negb (is_None (container_id a)));
    [|destruct (__system_shell a)];
    match goal with |- context [match ?m w with _ => _ end] =>
      destruct (m w) as [[[[c e] wd]|err] w1] end;
    try done; unfold tracked; destruct te; simpl; try done;
    unfold bind; simpl; done.
Qed.

(** C1: the back end of an Atom follows a fixed priority.  Constructed with
    a non-empty containerId it reports is_distrobox_container, whatever the
    other arguments; constructed with the pass-through flag it reports
    is_system_shell, a containerId given or not; and generate_command
    dispatches on the containerId first, then on the pass-through flag, and
    falls back to the chroot. *)
Theorem backend_priority :
  (∀ inst n d rp cd ud cid img ss bt bi bf bx w,
     cid ≠ "" →
     ∃ a w', __init__ inst (PyStr n) d rp cd ud (PyStr cid) img ss
                      bt bi bf bx w = (Ok a, w')
             ∧ is_distrobox_container a = true
             ∧ backend_of a = ManagedContainer)
  ∧ (∀ inst n d rp cd ud cid img bt bi bf bx w,
     ∃ a w', __init__ inst (PyStr n) d rp cd ud cid img true
                      bt bi bf bx w = (Ok a, w')
             ∧ is_system_shell a = true)
  ∧ (∀ a cmd env te w,
       generate_command a cmd env te w =
       bind match backend_of a with
            | ManagedContainer => __generate_distrobox_command a cmd env
            | PassThroughShell => __generate_system_shell_command a
            | Chroot => __generate_proot_command a cmd env
            end
            (tracked a te) w).
Proof.
  split; [|split].
  - intros inst n d rp cd ud cid img ss bt bi bf bx w _.
    destruct (init_total inst n d rp cd ud (PyStr cid) img ss bt bi bf bx w)
      as (a & w' & Hinit).
    exists a, w'. split; [done|].
    apply init_inv in Hinit as (_ & _ & _ & _ & _ & _ & _ & _ & Hcid & _).
    unfold is_distrobox_container, backend_of. by rewrite Hcid.
  - intros inst n d rp cd ud cid img bt bi bf bx w.
    destruct (init_total inst n d rp cd ud cid img true bt bi bf bx w)
      as (a & w' & Hinit).
    exists a, w'. split; [done|].
    by apply init_inv in Hinit
      as (_ & _ & _ & _ & _ & _ & _ & _ & _ & _ & Hss & _).
  - intros a cmd env te w. apply generate_command_by_backend.
Qed.

(** The methods that assign to the object keep the invariant of
    [__init__]. *)
Lemma constructed_assign a new_name v :
  constructed a →
  constructed (set_name new_name a)
  ∧ constructed (set_bind_themes_attr v a)
  ∧ constructed (set_bind_icons_attr v a)
  ∧ constructed (set_bind_fonts_attr v a).
Proof. done. Qed.

(** A container Atom has no path of its own. *)
Lemma container_root_path a :
  is_distrobox_container a = true → root_path a = "".
Proof. unfold root_path. by intros ->. Qed.

(** C7, as the code has it: for an Atom built with a non-empty containerId,
    generate_command returns a triple for every command: the command is the
    one the distrobox wrapper gives for that container (behind the launcher
    when track_exit is set) and the working directory is the Atom's
    root_path, which for a container is the empty string. *)
Theorem managed_container_command a cmd env te w :
  constructed a →
  truthy (container_id a) = true →
  ∃ w', generate_command a cmd env te w
        = (Ok ((if te then ["sh"; tmp_names w (tmp_used w)] else [])
               ++ get_distrobox_command_for_container (container_id a) cmd,
               default [] env,
               root_path a),
           w')
        ∧ root_path a = ""
        ∧ (te = false → w' = w).
Proof.
  intros Hwrap Hcid.
  assert (Hc : is_distrobox_container a = true).
  { unfold is_distrobox_container. by destruct (container_id a). }
  unfold constructed in Hwrap. rewrite Hcid in Hwrap.
  unfold generate_command, __generate_distrobox_command, bind, ret.
  rewrite Hc, Hwrap. simpl.
  destruct te; simpl; eexists; (split; [reflexivity|]);
    (split; [by apply container_root_path|done]).
Qed.

End Backends.

Lemma backend_priority_witness :
  "c0ffee" ≠ "" ∧
  ∃ a w', __init__ Sample.instance (PyStr "box") PyNone PyNone
            (PyStr "2022-09-01T09:00:00.000000") PyNone (PyStr "c0ffee")
            (PyStr "alpine") true (PyBool false) (PyBool false)
            (PyBool false) PyNone Sample.world = (Ok a, w')
          ∧ is_distrobox_container a = true
          ∧ backend_of a = ManagedContainer.
Proof.
  split; [done|].
  apply (proj1 (backend_priority (H := Sample.collaborators))). done.
Defined.

(** The constructor makes the wrapper under [if container_id:], so with
    the empty string for an id there is none to call. *)
Example empty_container_id :
  ∃ a w, __init__ Sample.instance (PyStr "box") PyNone PyNone PyNone PyNone
           (PyStr "") (PyStr "alpine") false (PyBool false) (PyBool false)
           (PyBool false) PyNone Sample.world = (Ok a, w)
         ∧ is_distrobox_container a = true
         ∧ generate_command a ["ls"] None false w
           = (Err (AttributeError "_Atom__distrobox_wrapper"), w).
Proof. eexists _, _. repeat split. Qed.

(** C7, as the specification words it, fails.  load_from_container with
    the empty string for a container id returns an Atom that is a managed
    container, by is_distrobox_container and by its back end, and on it
    generate_command returns no triple: it raises AttributeError, track_exit
    or not, for the constructor made no wrapper. *)
Lemma managed_container_command_fails_on_empty_id :
  ∃ a w,
    load_from_container Sample.instance (PyStr "2022-09-01T09:00:00.000000")
      (PyStr "box") (PyStr "alpine") (PyStr "") Sample.world = (Ok a, w)
    ∧ is_distrobox_container a = true
    ∧ backend_of a = ManagedContainer
    ∧ generate_command a ["ls"] None false w
      = (Err (AttributeError "_Atom__distrobox_wrapper"), w)
    ∧ generate_command a ["ls"] None true w
      = (Err (AttributeError "_Atom__distrobox_wrapper"), w).
Proof. eexists _, _. repeat split. Qed.

Lemma managed_container_command_witness :
  constructed Sample.container ∧
  truthy (container_id Sample.container) = true ∧
  ∃ w', generate_command Sample.container ["ls"] None false Sample.world
        = (Ok (["distrobox"; "enter"; "c0ffee"; "--"; "ls"], [], ""), w').
Proof.
  split; [reflexivity|]. split; [reflexivity|].
  destruct (managed_container_command Sample.container ["ls"] None false
              Sample.world eq_refl eq_refl) as (w' & Hgen & _).
  exists w'. exact Hgen.
Defined.

(** ** Persistence *)

Section Persistence.
Context `{Collaborators}.

Implicit Types (self a : Atom) (w : World) (inst : AtomsInstance).

(** A value without tuples is its own JSON document. *)
Lemma to_json_native : ∀ v, json_native v = true → to_json v = v.
Proof.
  fix to_json_native 1.
  intros v. destruct v as [| | |l|l|d]; simpl; try done.
  - intros Hl. f_equal. induction l as [|x l IH]; simpl in *; [done|].
    apply andb_true_iff in Hl as [Hx Hl].
    f_equal; [by apply to_json_native | by apply IH].
  - intros Hd. f_equal. induction d as [|[k x] d IH]; simpl in *; [done|].
    apply andb_true_iff in Hd as [Hx Hd].
    f_equal; [f_equal; by apply to_json_native | by apply IH].
Qed.

Lemma save_chroot a w :
  backend_of a = Chroot →
  save a w = (Ok (),
              with_file (manifest_path (_instance a) (relative_path a))
                        (Json (to_json (to_dict a))) w).
Proof.
  unfold backend_of, save, path, is_distrobox_container.
  destruct (negb (is_None (container_id a))); [done|].
  by destruct (__system_shell a).
Qed.

Lemma save_not_chroot a w :
  backend_of a ≠ Chroot →
  save a w = (Err (NameError "AtomsCannotSavePodmanContainers"), w).
Proof.
  unfold backend_of, save, is_distrobox_container.
  destruct (negb (is_None (container_id a))); [done|].
  by destruct (__system_shell a).
Qed.

Lemma load_file inst rp w data :
  files w !! manifest_path inst rp = Some (Json data) →
  load inst rp w = from_dict inst data w.
Proof.
  intros Hf. unfold load, bind, except_FileNotFoundError, open_read.
  fold (manifest_path inst rp). rewrite Hf. simpl.
  by destruct (from_dict inst data w) as [[?|?] ?].
Qed.

(** An Atom that [from_dict] returns was built by [__init__] without a
    container id, a container image or the pass-through flag. *)
Lemma from_dict_inv inst data w a w' :
  from_dict inst data w = (Ok a, w') →
  ∃ nm d rp cd ud bt bi bf bx,
    __init__ inst nm d rp cd ud PyNone PyNone false bt bi bf bx w
    = (Ok a, w').
Proof.
  unfold from_dict.
  destruct data as [| | | | |data]; try done.
  destruct (existsb _ _); [done|].
  unfold bind at 1, of_result.
  repeat (match goal with
          | |- context [dict_getitem ?d ?k] =>
              destruct (dict_getitem d k); [|done]
          end; try unfold bind at 1).
  eauto 10.
Qed.

Lemma load_inv inst rp w a w' :
  load inst rp w = (Ok a, w') →
  ∃ data, files w !! manifest_path inst rp = Some (Json data)
          ∧ from_dict inst data w = (Ok a, w').
Proof.
  unfold load, bind, except_FileNotFoundError, open_read, raise_, throw.
  fold (manifest_path inst rp).
  destruct (files w !! manifest_path inst rp) as [[data|text]|]; simpl;
    try done.
  eauto.
Qed.

(** C9: an Atom that from_dict returns, and so one that load returns, has
    no containerId and no pass-through flag: it reports neither
    is_distrobox_container nor is_system_shell, its back end is the chroot
    and generate_command takes the proot branch. *)
Theorem loaded_atom_is_chroot inst :
  (∀ data w a w',
     from_dict inst data w = (Ok a, w') →
     container_id a = PyNone ∧ __system_shell a = false
     ∧ is_distrobox_container a = false ∧ is_system_shell a = false
     ∧ backend_of a = Chroot
     ∧ ∀ cmd env te w0,
         generate_command a cmd env te w0
         = bind (__generate_proot_command a cmd env) (tracked a te) w0)
  ∧ (∀ rp w a w',
     load inst rp w = (Ok a, w') →
     container_id a = PyNone ∧ __system_shell a = false
     ∧ is_distrobox_container a = false ∧ is_system_shell a = false
     ∧ backend_of a = Chroot
     ∧ ∀ cmd env te w0,
         generate_command a cmd env te w0
         = bind (__generate_proot_command a cmd env) (tracked a te) w0).
Proof.
  assert (Hfrom : ∀ data w a w',
     from_dict inst data w = (Ok a, w') →
     container_id a = PyNone ∧ __system_shell a = false
     ∧ is_distrobox_container a = false ∧ is_system_shell a = false
     ∧ backend_of a = Chroot
     ∧ ∀ cmd env te w0,
         generate_command a cmd env te w0
         = bind (__generate_proot_command a cmd env) (tracked a te) w0).
  { intros data w a w' Hfrom.
    apply from_dict_inv in Hfrom
      as (nm & d & rp & cd & ud & bt & bi & bf & bx & Hinit).
    apply init_inv in Hinit
      as (_ & _ & _ & _ & _ & _ & _ & _ & Hcid & _ & Hss & _).
    assert (Hb : backend_of a = Chroot).
    { unfold backend_of. by rewrite Hcid, Hss. }
    unfold is_distrobox_container, is_system_shell.
    rewrite Hcid, Hss. repeat split; try done.
    intros cmd env te w0. rewrite generate_command_by_backend.
    by rewrite Hb. }
  split; [exact Hfrom|].
  intros rp w a w' Hload.
  apply load_inv in Hload as (data & _ & Hdata). by eapply Hfrom.
Qed.

(** C5: load fails with AtomsConfigFileNotFound when the manifest file is
    absent, and with AtomsWrongAtomData, returning no Atom, when the
    manifest record lacks one of name, distributionId, creationDate,
    updateDate, relativePath. *)
Theorem load_rejects_missing inst rp w :
  (files w !! manifest_path inst rp = None →
   load inst rp w
   = (Err (Raised "AtomsConfigFileNotFound" [PyStr (manifest_path inst rp)]),
      w))
  ∧ (∀ data k,
      files w !! manifest_path inst rp = Some (Json (PyDict data)) →
      k ∈ ["name"; "distributionId"; "creationDate"; "updateDate";
            "relativePath"] →
      dict_lookup k data = None →
      load inst rp w = (Err (Raised "AtomsWrongAtomData" [PyDict data]), w)
      ∧ from_dict inst (PyDict data) w
        = (Err (Raised "AtomsWrongAtomData" [PyDict data]), w)).
Proof.
  split.
  - intros Hf. unfold load, bind, except_FileNotFoundError, open_read.
    fold (manifest_path inst rp). by rewrite Hf.
  - intros data k Hf Hk Hmiss.
    rewrite (load_file _ _ _ _ Hf).
    assert (Hnone : dict_get data k = PyNone).
    { unfold dict_get. by rewrite Hmiss. }
    assert (from_dict inst (PyDict data) w
            = (Err (Raised "AtomsWrongAtomData" [PyDict data]), w)); [|done].
    unfold from_dict.
    repeat (apply elem_of_cons in Hk as [->|Hk]);
      [..|by apply elem_of_nil in Hk];
      simpl; rewrite Hnone; simpl;
      rewrite ?orb_true_r; done.
Qed.

(** C3, as the code has it: on an Atom whose back end is not the chroot,
    save writes no file and raises, but what it raises is NameError: the
    module never imports AtomsCannotSavePodmanContainers, the exception
    line 308 names. *)
Theorem save_not_chroot_raises_NameError a w :
  backend_of a ≠ Chroot →
  save a w = (Err (NameError "AtomsCannotSavePodmanContainers"), w)
  ∧ is_bound "AtomsCannotSavePodmanContainers" = false
  ∧ ∀ args, fst (save a w) ≠ Err (Raised "AtomsCannotSavePodmanContainers" args).
Proof.
  intros Hb. rewrite (save_not_chroot _ _ Hb). by repeat split.
Qed.

End Persistence.

Lemma loaded_atom_is_chroot_witness :
  ∃ w, load Sample.instance (PyStr "1f0e.atom") w = (Ok Sample.chroot, w)
       ∧ container_id Sample.chroot = PyNone
       ∧ backend_of Sample.chroot = Chroot.
Proof.
  exists (with_file "/atoms/1f0e.atom/atom.json"
            (Json (to_dict Sample.chroot)) Sample.world).
  assert (Hload : load Sample.instance (PyStr "1f0e.atom")
            (with_file "/atoms/1f0e.atom/atom.json"
               (Json (to_dict Sample.chroot)) Sample.world)
          = (Ok Sample.chroot,
             with_file "/atoms/1f0e.atom/atom.json"
               (Json (to_dict Sample.chroot)) Sample.world)).
  { vm_compute. reflexivity. }
  split; [exact Hload|].
  destruct (proj2 (loaded_atom_is_chroot Sample.instance) _ _ _ _ Hload)
    as (Hcid & _ & _ & _ & Hb & _).
  split; [exact Hcid | exact Hb].
Defined.

Lemma load_rejects_missing_witness :
  load Sample.instance (PyStr "gone.atom") Sample.world
  = (Err (Raised "AtomsConfigFileNotFound"
            [PyStr "/atoms/gone.atom/atom.json"]), Sample.world)
  ∧ let data := [ ("name", PyStr "test"); ("distributionId", PyStr "alpine");
                  ("relativePath", PyStr "1f0e.atom");
                  ("updateDate", PyStr "2022-09-01T09:00:00.000000") ] in
    let w := with_file "/atoms/1f0e.atom/atom.json" (Json (PyDict data))
               Sample.world in
    load Sample.instance (PyStr "1f0e.atom") w
    = (Err (Raised "AtomsWrongAtomData" [PyDict data]), w).
Proof.
  split.
  - apply (proj1 (load_rejects_missing Sample.instance (PyStr "gone.atom")
                    Sample.world)).
    vm_compute. reflexivity.
  - intros data w.
    apply (proj2 (load_rejects_missing Sample.instance (PyStr "1f0e.atom") w)
             data "creationDate").
    + vm_compute. reflexivity.
    + set_solver.
    + reflexivity.
Defined.

Lemma save_not_chroot_raises_NameError_witness :
  backend_of Sample.container ≠ Chroot
  ∧ save Sample.container Sample.world
    = (Err (NameError "AtomsCannotSavePodmanContainers"), Sample.world)
  ∧ backend_of Sample.system_shell ≠ Chroot
  ∧ save Sample.system_shell Sample.world
    = (Err (NameError "AtomsCannotSavePodmanContainers"), Sample.world).
Proof.
  split; [done|]. split.
  - apply (save_not_chroot_raises_NameError Sample.container). done.
  - split; [done|].
    apply (save_not_chroot_raises_NameError Sample.system_shell). done.
Defined.

(** ** Save, then load *)

Lemma dict_lookup_setitem_eq k v d : dict_lookup k (dict_setitem k v d) = Some v.
Proof.
  induction d as [|[k' v'] d IH]; simpl.
  - by rewrite String.eqb_refl.
  - destruct (String.eqb k k') eqn:Hk; simpl; by rewrite ?String.eqb_refl, ?Hk.
Qed.

Lemma dict_lookup_setitem_ne k k' v d :
  k ≠ k' → dict_lookup k' (dict_setitem k v d) = dict_lookup k' d.
Proof.
  intros Hne. apply not_eq_sym, String.eqb_neq in Hne.
  induction d as [|[k0 v0] d IH]; simpl.
  - by rewrite Hne.
  - destruct (String.eqb k k0) eqn:Hk; simpl.
    + apply String.eqb_eq in Hk as <-. by rewrite Hne.
    + by rewrite IH.
Qed.

(** After the loop a key reads as in the manifest, and as the default where
    the manifest has none. *)
Lemma fill_defaults_lookup data k :
  dict_lookup k (fill_defaults data) =
  match dict_lookup k data with
  | Some v => Some v
  | None => dict_lookup k get_extra_default_options
  end.
Proof.
  assert (Hstep : ∀ key val d,
    dict_lookup k (if negb (dict_contains key d)
                   then dict_setitem key val d else d)
    = match dict_lookup k d with
      | Some v => Some v
      | None => if String.eqb k key then Some val else None
      end).
  { intros key val d. unfold dict_contains.
    destruct (String.eqb k key) eqn:Hk.
    - apply String.eqb_eq in Hk as ->.
      destruct (dict_lookup key d) eqn:Hd; simpl; [by rewrite Hd|].
      apply dict_lookup_setitem_eq.
    - apply String.eqb_neq in Hk.
      destruct (dict_lookup key d) eqn:Hd; simpl.
      + by destruct (dict_lookup k d).
      + rewrite dict_lookup_setitem_ne by done. by destruct (dict_lookup k d). }
  unfold fill_defaults, get_extra_default_options. simpl fold_left.
  rewrite !Hstep. simpl dict_lookup.
  destruct (dict_lookup k data); [done|].
  by repeat destruct (String.eqb k _).
Qed.

Section Roundtrip.
Context `{Collaborators}.

Implicit Types (self a : Atom) (w : World) (inst : AtomsInstance).

Lemma lookup_with_file path f w : files (with_file path f w) !! path = Some f.
Proof. apply lookup_insert_eq. Qed.

(** C2, as the code has it.  For every chroot Atom (no containerId, no
    pass-through flag) whose name is trimmed, whose distributionId,
    relativePath, creationDate and updateDate are set (strings), whose bind
    flags are booleans and whose extra mounts are a list without tuples,
    save followed by load from the same directory returns an Atom with the
    same name, distributionId, relativePath, creationDate, updateDate,
    bindThemes, bindIcons, bindFonts and bindExtraMounts.  And where a
    manifest has no bind-mount field, from_dict fills in false for themes,
    icons and fonts and the empty list for the extra mounts, values that
    the round trip keeps. *)
Theorem save_load_roundtrip :
  (∀ a w,
     persistable a = true →
     ∃ w1 a',
       save a w = (Ok (), w1)
       ∧ load (_instance a) (relative_path a) w1 = (Ok a', w1)
       ∧ name a' = name a
       ∧ distribution_id a' = distribution_id a
       ∧ relative_path a' = relative_path a
       ∧ creation_date a' = creation_date a
       ∧ update_date a' = update_date a
       ∧ bind_themes a' = bind_themes a
       ∧ bind_icons a' = bind_icons a
       ∧ bind_fonts a' = bind_fonts a
       ∧ bind_extra_mounts a' = bind_extra_mounts a
       ∧ persistable a' = true)
  ∧ (∀ inst data w a w',
       from_dict inst (PyDict data) w = (Ok a, w') →
       (dict_lookup "bindThemes" data = None → bind_themes a = PyBool false)
       ∧ (dict_lookup "bindIcons" data = None → bind_icons a = PyBool false)
       ∧ (dict_lookup "bindFonts" data = None → bind_fonts a = PyBool false)
       ∧ (dict_lookup "bindExtraMounts" data = None →
          bind_extra_mounts a = PyList [])).
Proof.
  split.
  - intros a w Hp. unfold persistable in Hp.
    repeat (apply andb_true_iff in Hp as [Hp ?]).
    destruct a as [inst nm d rp cd ud cid img ss bt bi bf bx wr];
      simpl in *.
    destruct cid; try done. destruct ss; try done.
    destruct d as [| |d| | |]; try done.
    destruct rp as [| |rp| | |]; try done.
    destruct cd as [| |cd| | |]; try done.
    destruct ud as [| |ud| | |]; try done.
    destruct bt as [|bt| | | |]; try done.
    destruct bi as [|bi| | | |]; try done.
    destruct bf as [|bf| | | |]; try done.
    destruct bx as [| | |bx| |]; try done.
    match goal with Hn : String.eqb (strip nm) nm = true |- _ =>
      apply String.eqb_eq in Hn; rename Hn into Hnm end.
    match goal with Hx : is_json_list (PyList bx) = true |- _ =>
      unfold is_json_list in Hx; simpl in Hx; rename Hx into Hbx end.
    eexists _, _. rewrite save_chroot by done. split; [reflexivity|].
    simpl _instance. simpl relative_path.
    rewrite (load_file _ _ _ _ (lookup_with_file _ _ _)).
    rewrite to_json_native by (simpl; by rewrite Hbx).
    unfold to_dict, from_dict. simpl.
    unfold bind, of_result, __init__, str_strip, ret, bind. simpl.
    rewrite Hnm.
    assert (Hor : py_or (PyList bx) (PyList []) = PyList bx)
      by (by destruct bx).
    rewrite Hor. split; [reflexivity|]. simpl.
    repeat split; try done.
    unfold persistable. simpl. rewrite Hnm, String.eqb_refl. simpl.
    unfold is_json_list. done.
  - intros inst data w a w' Hfrom.
    unfold from_dict in Hfrom.
    destruct (existsb _ _); [done|].
    unfold bind at 1, of_result in Hfrom.
    repeat (match type of Hfrom with
            | context [dict_getitem ?d ?k] =>
                let Hk := fresh "Hk" in
                destruct (dict_getitem d k) eqn:Hk; [|done]
            end; try unfold bind at 1 in Hfrom).
    apply init_inv in Hfrom
      as (_ & _ & _ & _ & _ & _ & _ & _ & _ & _ & _ & Hbt & Hbi & Hbf & Hbx & _).
    unfold dict_getitem in *.
    rewrite fill_defaults_lookup in *.
    repeat split; intros Hmiss; rewrite Hmiss in *; simpl in *;
      simplify_eq; done.
Qed.

End Roundtrip.

Lemma save_load_roundtrip_witness :
  persistable Sample.chroot = true
  ∧ (∃ w1 a',
       save Sample.chroot Sample.world = (Ok (), w1)
       ∧ load Sample.instance (PyStr "1f0e.atom") w1 = (Ok a', w1)
       ∧ name a' = "test"
       ∧ bind_themes a' = PyBool true
       ∧ bind_extra_mounts a' = PyList [PyList [PyStr "/srv"; PyStr "/mnt"]])
  ∧ (∃ a, from_dict Sample.instance (PyDict Sample.old_manifest) Sample.world
          = (Ok a, Sample.world)
          ∧ bind_themes a = PyBool false
          ∧ bind_extra_mounts a = PyList []
          ∧ persistable a = true).
Proof.
  split; [reflexivity|]. split.
  - destruct (proj1 (save_load_roundtrip (H := Sample.collaborators))
                Sample.chroot Sample.world eq_refl)
      as (w1 & a' & Hsave & Hload & Hname & _ & _ & _ & _ & Hbt & _ & _
          & Hbx & _).
    exists w1, a'. repeat split; assumption.
  - eexists. split; [reflexivity|].
    destruct (proj2 (save_load_roundtrip (H := Sample.collaborators))
                Sample.instance Sample.old_manifest Sample.world _ _ eq_refl)
      as (Hbt & _ & _ & Hbx).
    split; [exact (Hbt eq_refl)|]. split; [exact (Hbx eq_refl)|].
    reflexivity.
Defined.

(** C2, as the specification words it, fails.  An Atom with a relativePath
    and every other argument at its default is saved with null for its
    distributionId and dates, and load rejects that manifest.  An Atom
    renamed to a name with white space around it is saved under that name
    and loaded under the trimmed one.  An extra mount given as a tuple is
    loaded as a list. *)
Lemma save_load_fails_on_specified_chroot :
  (chroot_as_specified Sample.bare = true
   ∧ ∃ w1, save Sample.bare Sample.world = (Ok (), w1)
           ∧ load Sample.instance (relative_path Sample.bare) w1
             = (Err (Raised "AtomsWrongAtomData" [to_dict Sample.bare]), w1))
  ∧ (∃ a w1 a',
       rename " x " (Sample.chroot, Sample.world) = (Ok (), (a, w1))
       ∧ chroot_as_specified a = true
       ∧ save a w1 = (Ok (), w1)
       ∧ load Sample.instance (relative_path a) w1 = (Ok a', w1)
       ∧ name a = " x " ∧ name a' = "x")
  ∧ (chroot_as_specified Sample.pairs = true
     ∧ ∃ w1 a',
         save Sample.pairs Sample.world = (Ok (), w1)
         ∧ load Sample.instance (relative_path Sample.pairs) w1 = (Ok a', w1)
         ∧ bind_extra_mounts Sample.pairs
           = PyList [PyTuple [PyStr "/srv"; PyStr "/mnt"]]
         ∧ bind_extra_mounts a'
           = PyList [PyList [PyStr "/srv"; PyStr "/mnt"]]).
Proof.
  split; [|split].
  - split; [reflexivity|]. eexists. split; vm_compute; reflexivity.
  - eexists _, _, _. split; [vm_compute; reflexivity|].
    split; [reflexivity|]. split; [vm_compute; reflexivity|].
    split; [vm_compute; reflexivity|]. split; reflexivity.
  - split; [reflexivity|]. eexists _, _.
    split; [vm_compute; reflexivity|].
    split; [vm_compute; reflexivity|]. split; reflexivity.
Qed.

(** ** Rename and the bind-mount setters *)

Section Lifecycle.
Context `{Collaborators}.

Implicit Types (self a : Atom) (w : World) (inst : AtomsInstance).

Lemma not_chroot_guard a :
  backend_of a ≠ Chroot →
  is_distrobox_container a || __system_shell a = true.
Proof.
  unfold backend_of, is_distrobox_container.
  destruct (negb (is_None (container_id a))); [done|].
  by destruct (__system_shell a).
Qed.

Lemma chroot_guard a :
  backend_of a = Chroot →
  is_distrobox_container a || __system_shell a = false.
Proof.
  unfold backend_of, is_distrobox_container.
  destruct (negb (is_None (container_id a))); [done|].
  by destruct (__system_shell a).
Qed.

(** A setter on an Atom that is no chroot: the attribute is assigned, then
    save raises. *)
Lemma assign_then_save_not_chroot (f : Atom → Atom) a w :
  backend_of (f a) ≠ Chroot →
  bind (assign f) (λ _, on_self save) (a, w)
  = (Err (NameError "AtomsCannotSavePodmanContainers"), (f a, w)).
Proof.
  intros Hb. unfold bind, assign, modify, on_self. simpl.
  by rewrite (save_not_chroot _ _ Hb).
Qed.

(** C6, as the code has it.  On an Atom whose back end is not the chroot,
    rename leaves the name as it was and raises, but what it raises is
    NameError: the module never imports AtomsCannotRenamePodmanContainers,
    the exception line 388 names.  On a chroot Atom rename sets the name to
    new_name and writes the manifest again. *)
Theorem rename_by_backend a new_name w :
  (backend_of a ≠ Chroot →
   rename new_name (a, w)
   = (Err (NameError "AtomsCannotRenamePodmanContainers"), (a, w))
   ∧ is_bound "AtomsCannotRenamePodmanContainers" = false)
  ∧ (backend_of a = Chroot →
     rename new_name (a, w)
     = (Ok (),
        (set_name new_name a,
         with_file (manifest_path (_instance a) (relative_path a))
                   (Json (to_json (to_dict (set_name new_name a)))) w))
     ∧ name (set_name new_name a) = new_name).
Proof.
  split; intros Hb.
  - split; [|done].
    unfold rename, bind, gets. simpl. by rewrite (not_chroot_guard _ Hb).
  - split; [|done].
    unfold rename, bind, gets, assign, modify, on_self. simpl.
    rewrite (chroot_guard _ Hb). simpl.
    by rewrite save_chroot by done.
Qed.

(** C10: on an Atom whose back end is not the chroot, each of
    set_bind_themes, set_bind_icons and set_bind_fonts raises, out of the
    check save makes, after it has assigned the flag: the object is left
    with the new value, so it is not the object the call was made on
    whenever the value is a new one. *)
Theorem bind_setters_assign_before_raising a status w :
  backend_of a ≠ Chroot →
  let e := NameError "AtomsCannotSavePodmanContainers" in
  (∃ a', set_bind_themes status (a, w) = (Err e, (a', w))
         ∧ bind_themes a' = PyBool status
         ∧ (bind_themes a ≠ PyBool status → a' ≠ a))
  ∧ (∃ a', set_bind_icons status (a, w) = (Err e, (a', w))
           ∧ bind_icons a' = PyBool status
           ∧ (bind_icons a ≠ PyBool status → a' ≠ a))
  ∧ (∃ a', set_bind_fonts status (a, w) = (Err e, (a', w))
           ∧ bind_fonts a' = PyBool status
           ∧ (bind_fonts a ≠ PyBool status → a' ≠ a)).
Proof.
  intros Hb e.
  split; [|split]; eexists;
    (split; [by apply assign_then_save_not_chroot|]);
    (split; [done|]); intros Hne Heq; apply Hne; by rewrite <- Heq.
Qed.

End Lifecycle.

Lemma rename_by_backend_witness :
  backend_of Sample.container ≠ Chroot
  ∧ rename "crate" (Sample.container, Sample.world)
    = (Err (NameError "AtomsCannotRenamePodmanContainers"),
       (Sample.container, Sample.world))
  ∧ backend_of Sample.chroot = Chroot
  ∧ ∃ a w1, rename "crate" (Sample.chroot, Sample.world) = (Ok (), (a, w1))
            ∧ name a = "crate"
            ∧ files w1 !! "/atoms/1f0e.atom/atom.json"
              = Some (Json (to_dict a)).
Proof.
  split; [done|]. split.
  - apply (proj1 (rename_by_backend Sample.container "crate" Sample.world)).
    done.
  - split; [reflexivity|].
    destruct (proj2 (rename_by_backend Sample.chroot "crate" Sample.world)
                eq_refl) as [Hren Hname].
    eexists _, _. split; [exact Hren|]. split; [exact Hname|].
    vm_compute. reflexivity.
Defined.

Lemma bind_setters_assign_before_raising_witness :
  backend_of Sample.container ≠ Chroot
  ∧ bind_themes Sample.container = PyBool false
  ∧ ∃ a', set_bind_themes true (Sample.container, Sample.world)
          = (Err (NameError "AtomsCannotSavePodmanContainers"),
             (a', Sample.world))
          ∧ bind_themes a' = PyBool true
          ∧ a' ≠ Sample.container.
Proof.
  split; [done|]. split; [reflexivity|].
  destruct (bind_setters_assign_before_raising Sample.container true
              Sample.world) as [(a' & Hset & Hflag & Hne) _]; [done|].
  exists a'. split; [exact Hset|]. split; [exact Hflag|].
  apply Hne. done.
Defined.

(** ** The bind mounts *)

Section BindMounts.
Context `{Collaborators}.

Implicit Types (self a : Atom).

(** C8: with boolean flags and a list of extra mounts, bind_mounts returns
    the fixed mounts followed by the extra mounts, where the fixed mounts
    are taken in order from themes, icons, fonts and hold the themes pair
    exactly when bind_themes is set, the icons pair exactly when bind_icons
    is, the fonts pair exactly when bind_fonts is. *)
Theorem bind_mounts_order a (t i f : bool) (extra : list pyval) :
  bind_themes a = PyBool t →
  bind_icons a = PyBool i →
  bind_fonts a = PyBool f →
  bind_extra_mounts a = PyList extra →
  ∃ fixed,
    bind_mounts a = Ok (fixed ++ extra)
    ∧ fixed = (if t then [themes_mount] else [])
              ++ (if i then [icons_mount] else [])
              ++ (if f then [fonts_mount] else [])
    ∧ fixed `sublist_of` [themes_mount; icons_mount; fonts_mount]
    ∧ (themes_mount ∈ fixed ↔ t = true)
    ∧ (icons_mount ∈ fixed ↔ i = true)
    ∧ (fonts_mount ∈ fixed ↔ f = true).
Proof.
  intros Ht Hi Hf Hx.
  exists ((if t then [themes_mount] else [])
          ++ (if i then [icons_mount] else [])
          ++ (if f then [fonts_mount] else [])).
  split.
  - unfold bind_mounts. rewrite Ht, Hi, Hf, Hx.
    destruct extra as [|x extra]; simpl;
      destruct t, i, f; simpl; by rewrite ?app_nil_r.
  - split; [done|].
    destruct t, i, f; simpl; (split; [repeat constructor|]);
      rewrite ?elem_of_cons, ?elem_of_nil;
      unfold themes_mount, icons_mount, fonts_mount;
      intuition congruence.
Qed.

End BindMounts.


Lemma bind_mounts_order_witness :
  bind_themes Sample.chroot = PyBool true
  ∧ bind_icons Sample.chroot = PyBool false
  ∧ bind_fonts Sample.chroot = PyBool false
  ∧ bind_extra_mounts Sample.chroot
    = PyList [PyList [PyStr "/srv"; PyStr "/mnt"]]
  ∧ bind_mounts Sample.chroot
    = Ok [themes_mount; PyList [PyStr "/srv"; PyStr "/mnt"]].
Proof.
  repeat (split; [reflexivity|]).
  destruct (bind_mounts_order Sample.chroot true false false
              [PyList [PyStr "/srv"; PyStr "/mnt"]]
              eq_refl eq_refl eq_refl eq_refl)
    as (fixed & Hm & -> & _).
  exact Hm.
Defined.

(** * Further properties of the class *)

(** ** Construction, again *)

Section MoreConstruction.
Context `{Collaborators}.

Implicit Types (self a : Atom) (w : World) (inst : AtomsInstance).

(** X1: the update date of a new Atom.  A given one is kept; with none
    given, an Atom with a container id that is not empty, or the
    pass-through flag, takes one reading of the clock, and any other Atom
    takes its creation date without reading the clock.  Files and
    environment are never touched. *)
Theorem init_update_date inst n d rp cd ud cid img ss bt bi bf bx w :
  ∃ a w',
    __init__ inst (PyStr n) d rp cd ud cid img ss bt bi bf bx w = (Ok a, w')
    ∧ files w' = files w ∧ environ w' = environ w
    ∧ tmp_used w' = tmp_used w
    ∧ if is_None ud
      then if truthy cid || ss
           then update_date a = PyStr (clock w (ticks w))
                ∧ ticks w' = S (ticks w)
           else update_date a = cd ∧ w' = w
      else update_date a = ud ∧ w' = w.
Proof.
  unfold __init__, bind, str_strip, now, ret.
  destruct (is_None ud) eqn:Hud; simpl;
    [destruct (truthy cid || ss) eqn:Hc; simpl|];
    eexists _, _; (split; [reflexivity|]); simpl; done.
Qed.

(** X2: what bind_mounts does with the extra mounts, by what they are.
    True cannot be iterated: bind_mounts raises TypeError.  None, False,
    the empty string and the empty list add nothing.  A list or a tuple
    adds its items, a string its characters and a dict its keys, after the
    fixed mounts.  And an Atom built with falsy extra mounts has the empty
    list for them. *)
Theorem bind_mounts_by_extra_mounts a :
  let fixed := (if truthy (bind_themes a) then [themes_mount] else [])
               ++ (if truthy (bind_icons a) then [icons_mount] else [])
               ++ (if truthy (bind_fonts a) then [fonts_mount] else []) in
  (bind_extra_mounts a = PyBool true →
   bind_mounts a = Err (TypeError "'bool' object is not iterable"))
  ∧ (bind_extra_mounts a = PyNone ∨ bind_extra_mounts a = PyBool false
     ∨ bind_extra_mounts a = PyStr "" ∨ bind_extra_mounts a = PyList [] →
     bind_mounts a = Ok fixed)
  ∧ (∀ l, bind_extra_mounts a = PyList l ∨ bind_extra_mounts a = PyTuple l →
          bind_mounts a = Ok (fixed ++ l))
  ∧ (∀ s, bind_extra_mounts a = PyStr s →
          bind_mounts a
          = Ok (fixed ++ List.map (λ c, PyStr (String c ""))
                                  (String.list_ascii_of_string s)))
  ∧ (∀ d, bind_extra_mounts a = PyDict d →
          bind_mounts a = Ok (fixed ++ List.map (λ kv, PyStr kv.1) d))
  ∧ (∀ inst nm d rp cd ud cid img ss bt bi bf bx w a' w',
       __init__ inst nm d rp cd ud cid img ss bt bi bf bx w = (Ok a', w') →
       truthy bx = false → bind_extra_mounts a' = PyList []).
Proof.
  intros fixed.
  assert (Hinit : ∀ inst nm d rp cd ud cid img ss bt bi bf bx w a' w',
    __init__ inst nm d rp cd ud cid img ss bt bi bf bx w = (Ok a', w') →
    truthy bx = false → bind_extra_mounts a' = PyList []).
  { intros inst nm d rp cd ud cid img ss bt bi bf bx w a' w' Hinit Hbx.
    apply init_inv in Hinit
      as (_ & _ & _ & _ & _ & _ & _ & _ & _ & _ & _ & _ & _ & _ & Hx & _).
    rewrite Hx. unfold py_or. by rewrite Hbx. }
  subst fixed. unfold bind_mounts.
  destruct (truthy (bind_themes a)), (truthy (bind_icons a)),
           (truthy (bind_fonts a)); cbn [app];
    (split; [by intros ->|]);
    (split; [by intros [->|[->|[->| ->]]]|]);
    (split; [intros l [->| ->]; destruct l; cbn; by rewrite ?app_nil_r|]);
    (split; [intros s ->; destruct s; cbn; by rewrite ?app_nil_r|]);
    (split; [intros d ->; destruct d; cbn; by rewrite ?app_nil_r|]);
    exact Hinit.
Qed.

End MoreConstruction.

(** ** Reading a manifest *)

Section MoreFromDict.
Context `{Collaborators}.

Implicit Types (self a : Atom) (w : World) (inst : AtomsInstance).

Lemma dict_get_not_None data k :
  dict_get data k ≠ PyNone →
  ∃ v, dict_lookup k data = Some v ∧ dict_get data k = v ∧ is_None v = false.
Proof.
  unfold dict_get. destruct (dict_lookup k data) as [v|]; simpl; [|done].
  intros Hv. exists v. repeat split. by destruct v.
Qed.

Lemma required_present data :
  existsb is_None
    [ dict_get data "name"; dict_get data "distributionId";
      dict_get data "creationDate"; dict_get data "updateDate";
      dict_get data "relativePath" ] = false
  ↔ ∀ k, k ∈ required_fields → dict_get data k ≠ PyNone.
Proof.
  unfold required_fields. split.
  - intros Hex k Hk. simpl in Hex.
    repeat (apply orb_false_iff in Hex as [? Hex]).
    repeat (apply elem_of_cons in Hk as [->|Hk]);
      [..|by apply elem_of_nil in Hk];
      intros Hn; rewrite Hn in *; done.
  - intros Hall. simpl.
    assert (Hk : ∀ k, k ∈ required_fields → is_None (dict_get data k) = false).
    { intros k Hk. specialize (Hall k Hk).
      by destruct (dict_get data k). }
    unfold required_fields in Hk.
    rewrite !Hk by set_solver. done.
Qed.

(** With the five fields there, [from_dict] is the constructor on the
    values of the manifest and the defaults. *)
Lemma from_dict_eval inst data w :
  (∀ k, k ∈ required_fields → dict_get data k ≠ PyNone) →
  from_dict inst (PyDict data) w
  = __init__ inst (dict_get data "name") (dict_get data "distributionId")
             (dict_get data "relativePath") (dict_get data "creationDate")
             (dict_get data "updateDate") PyNone PyNone false
             (default (PyBool false) (dict_lookup "bindThemes" data))
             (default (PyBool false) (dict_lookup "bindIcons" data))
             (default (PyBool false) (dict_lookup "bindFonts" data))
             (default (PyList []) (dict_lookup "bindExtraMounts" data)) w.
Proof.
  intros Hall.
  assert (Hex := proj2 (required_present data) Hall).
  unfold from_dict. rewrite Hex.
  unfold required_fields in Hall.
  destruct (dict_get_not_None data "name") as (v1 & H1 & G1 & _);
    [apply Hall; set_solver|].
  destruct (dict_get_not_None data "distributionId") as (v2 & H2 & G2 & _);
    [apply Hall; set_solver|].
  destruct (dict_get_not_None data "creationDate") as (v3 & H3 & G3 & _);
    [apply Hall; set_solver|].
  destruct (dict_get_not_None data "updateDate") as (v4 & H4 & G4 & _);
    [apply Hall; set_solver|].
  destruct (dict_get_not_None data "relativePath") as (v5 & H5 & G5 & _);
    [apply Hall; set_solver|].
  rewrite G1, G2, G3, G4, G5.
  unfold bind, of_result, dict_getitem.
  rewrite !fill_defaults_lookup, H1, H2, H3, H4, H5. simpl.
  destruct (dict_lookup "bindThemes" data),
           (dict_lookup "bindIcons" data),
           (dict_lookup "bindFonts" data),
           (dict_lookup "bindExtraMounts" data); reflexivity.
Qed.

(** X3: from_dict raises AtomsWrongAtomData exactly for the records in
    which one of the five required fields is missing or null. *)
Theorem from_dict_rejects_iff inst data w :
  from_dict inst (PyDict data) w
  = (Err (Raised "AtomsWrongAtomData" [PyDict data]), w)
  ↔ ∃ k, k ∈ required_fields ∧ dict_get data k = PyNone.
Proof.
  split.
  - intros Hfrom.
    destruct (existsb is_None
      [ dict_get data "name"; dict_get data "distributionId";
        dict_get data "creationDate"; dict_get data "updateDate";
        dict_get data "relativePath" ]) eqn:Hex.
    + apply existsb_exists in Hex as (v & Hin & Hv).
      apply list_elem_of_In in Hin. unfold required_fields.
      repeat (apply elem_of_cons in Hin as [->|Hin]);
        [..|by apply elem_of_nil in Hin];
        match goal with Hv : is_None (dict_get data ?k) = true |- _ =>
          exists k; split; [set_solver | by destruct (dict_get data k)] end.
    + exfalso. pose proof (proj1 (required_present data) Hex) as Hall.
      clear Hex. rename Hall into Hex.
      rewrite (from_dict_eval _ _ _ Hex) in Hfrom.
      unfold __init__, bind, str_strip, now, ret, throw in Hfrom.
      destruct (dict_get_not_None data "updateDate") as (v & _ & Hud & Hv);
        [apply Hex; unfold required_fields; set_solver|].
      rewrite Hud, Hv in Hfrom. simpl in Hfrom.
      by destruct (dict_get data "name").
  - intros (k & Hk & Hnone).
    assert (Hex : existsb is_None
      [ dict_get data "name"; dict_get data "distributionId";
        dict_get data "creationDate"; dict_get data "updateDate";
        dict_get data "relativePath" ] = true).
    { destruct (existsb _ _) eqn:Hex; [done|].
      pose proof (proj1 (required_present data) Hex) as Hall. by destruct (Hall k Hk). }
    unfold from_dict. by rewrite Hex.
Qed.

(** X4: on a record with the five required fields and a string for a name,
    from_dict returns an Atom and leaves the world as it is.  The Atom has
    the trimmed name and the other four values as the record gives them; a
    bind-mount field is the record's where the key is there, null
    included, and false where it is not; the extra mounts are the record's
    when that value is truthy and the empty list otherwise. *)
Theorem from_dict_complete inst data w n :
  (∀ k, k ∈ required_fields → dict_get data k ≠ PyNone) →
  dict_get data "name" = PyStr n →
  ∃ a, from_dict inst (PyDict data) w = (Ok a, w)
       ∧ _instance a = inst
       ∧ name a = strip n
       ∧ distribution_id a = dict_get data "distributionId"
       ∧ relative_path a = dict_get data "relativePath"
       ∧ creation_date a = dict_get data "creationDate"
       ∧ update_date a = dict_get data "updateDate"
       ∧ bind_themes a = default (PyBool false) (dict_lookup "bindThemes" data)
       ∧ bind_icons a = default (PyBool false) (dict_lookup "bindIcons" data)
       ∧ bind_fonts a = default (PyBool false) (dict_lookup "bindFonts" data)
       ∧ bind_extra_mounts a
         = (if truthy (dict_get data "bindExtraMounts")
            then dict_get data "bindExtraMounts" else PyList [])
       ∧ container_image a = PyNone.
Proof.
  intros Hall Hname.
  rewrite (from_dict_eval _ _ _ Hall), Hname.
  destruct (dict_get_not_None data "updateDate") as (v & _ & Hv & Hnn);
    [apply Hall; unfold required_fields; set_solver|].
  unfold __init__, bind, str_strip, now, ret. rewrite Hv, Hnn. simpl.
  eexists. split; [reflexivity|]. simpl. repeat split; try done.
  unfold py_or, dict_get.
  destruct (dict_lookup "bindExtraMounts" data) as [x|]; simpl; done.
Qed.

(** What [from_dict] can do: the world stays, and the errors are three. *)
Lemma from_dict_outcome inst data w r w' :
  from_dict inst data w = (r, w') →
  w' = w
  ∧ ∀ e, r = Err e →
         e = Raised "AtomsWrongAtomData" [data]
         ∨ (e = AttributeError "get" ∧ ∀ d, data ≠ PyDict d)
         ∨ (e = AttributeError "strip"
            ∧ ∃ d, data = PyDict d ∧ is_str (dict_get d "name") = false).
Proof.
  destruct data as [| | | | |data];
    try (intros [= <- <-]; split; [done|]; intros e [= <-];
         right; left; by split).
  destruct (existsb is_None
      [ dict_get data "name"; dict_get data "distributionId";
        dict_get data "creationDate"; dict_get data "updateDate";
        dict_get data "relativePath" ]) eqn:Hex.
  - unfold from_dict. rewrite Hex. intros [= <- <-].
    split; [done|]. intros e [= <-]. by left.
  - pose proof (proj1 (required_present data) Hex) as Hall.
    clear Hex. rename Hall into Hex.
    rewrite (from_dict_eval _ _ _ Hex).
    destruct (dict_get_not_None data "updateDate") as (v & _ & Hv & Hnn);
      [apply Hex; unfold required_fields; set_solver|].
    unfold __init__, bind, str_strip, now, ret, throw. rewrite Hv, Hnn. simpl.
    destruct (dict_get data "name") eqn:Hn; intros [= <- <-];
      (split; [done|]); intros e [= <-];
      right; right; (split; [done|]); exists data; by rewrite Hn.
Qed.

(** X5: from_dict raises nothing but AtomsWrongAtomData, for a record that
    lacks a required field, and AttributeError, for a value that is no dict
    or a name that is no string; the subscripts never raise KeyError.
    Whatever it does, the world is as before. *)
Theorem from_dict_raises_only inst data w r w' :
  from_dict inst data w = (r, w') →
  w' = w
  ∧ ∀ e, r = Err e →
         e = Raised "AtomsWrongAtomData" [data]
         ∨ (e = AttributeError "get" ∧ ∀ d, data ≠ PyDict d)
         ∨ (e = AttributeError "strip"
            ∧ ∃ d, data = PyDict d ∧ is_str (dict_get d "name") = false).
Proof. apply from_dict_outcome. Qed.

End MoreFromDict.

(** ** Loading and saving *)

Section MoreLoadSave.
Context `{Collaborators}.

Implicit Types (self a : Atom) (w : World) (inst : AtomsInstance).

(** What [load] does with what is at the manifest path. *)
Lemma load_cases inst rp w :
  load inst rp w =
  match files w !! manifest_path inst rp with
  | None => (Err (Raised "AtomsConfigFileNotFound"
                         [PyStr (manifest_path inst rp)]), w)
  | Some (Text _) => (Err JSONDecodeError, w)
  | Some (Json data) => from_dict inst data w
  end.
Proof.
  unfold load, bind, except_FileNotFoundError, open_read.
  fold (manifest_path inst rp).
  by destruct (files w !! manifest_path inst rp) as [[data|text]|].
Qed.

(** X6: load only reads.  Whatever it returns or raises, the world after
    it is the world before it: no file written, no clock reading taken. *)
Theorem load_read_only inst rp w r w' :
  load inst rp w = (r, w') → w' = w.
Proof.
  rewrite load_cases.
  destruct (files w !! manifest_path inst rp) as [[data|text]|];
    try (by intros [= _ <-]).
  intros Hfrom. by apply from_dict_outcome in Hfrom as [-> _].
Qed.

(** X7: load by what is at the manifest path.  It raises
    AtomsConfigFileNotFound exactly when no file is there.  On a file of
    text that is no JSON document it raises JSONDecodeError, which it does
    not catch, and leaves the world as it is; and it raises JSONDecodeError
    only where a file is there that holds no JSON document.  On a JSON
    document it is from_dict on the value decoded, so that the errors left
    are those of from_dict: AtomsWrongAtomData, and AttributeError for a
    document that is no record or a name that is no string. *)
Theorem load_by_manifest inst rp w :
  (fst (load inst rp w)
   = Err (Raised "AtomsConfigFileNotFound" [PyStr (manifest_path inst rp)])
   ↔ files w !! manifest_path inst rp = None)
  ∧ (∀ text, files w !! manifest_path inst rp = Some (Text text) →
             load inst rp w = (Err JSONDecodeError, w))
  ∧ (fst (load inst rp w) = Err JSONDecodeError →
     ∃ f, files w !! manifest_path inst rp = Some f ∧ ∀ data, f ≠ Json data)
  ∧ (∀ data, files w !! manifest_path inst rp = Some (Json data) →
       load inst rp w = from_dict inst data w
       ∧ ∀ e, fst (load inst rp w) = Err e →
              e = Raised "AtomsWrongAtomData" [data]
              ∨ e = AttributeError "get" ∨ e = AttributeError "strip").
Proof.
  rewrite load_cases.
  destruct (files w !! manifest_path inst rp) as [[data|text]|] eqn:Hf.
  - destruct (from_dict inst data w) as [r w'] eqn:Hfrom. cbn [fst].
    destruct (from_dict_outcome _ _ _ _ _ Hfrom) as [-> Hr].
    split; [split; [|done]|].
    { intros Hr'. destruct (Hr _ Hr') as [?|[[? _]|[? _]]]; simplify_eq. }
    split; [done|]. split.
    { intros Hr'. destruct (Hr _ Hr') as [?|[[? _]|[? _]]]; simplify_eq. }
    intros data' [= <-]. split; [by rewrite Hfrom|].
    intros e He. destruct (Hr _ He) as [?|[[? _]|[? _]]]; auto.
  - cbn [fst]. split; [done|]. split; [by intros ? [= <-]|].
    split; [|done]. intros _. exists (Text text). by split.
  - cbn [fst]. split; [done|]. split; [done|]. split; done.
Qed.

(** X8: an Atom that load returns is the one the manifest describes, not
    the one the caller named: its relativePath is the value recorded in the
    file, whatever directory the file was read from, and so are its
    distributionId and dates; its name is the recorded name, trimmed. *)
Theorem load_returns_the_record inst rp w a w' :
  load inst rp w = (Ok a, w') →
  ∃ data n,
    files w !! manifest_path inst rp = Some (Json (PyDict data))
    ∧ dict_get data "name" = PyStr n ∧ name a = strip n
    ∧ relative_path a = dict_get data "relativePath"
    ∧ distribution_id a = dict_get data "distributionId"
    ∧ creation_date a = dict_get data "creationDate"
    ∧ update_date a = dict_get data "updateDate"
    ∧ _instance a = inst
    ∧ ∀ k, k ∈ required_fields → dict_get data k ≠ PyNone.
Proof.
  rewrite load_cases.
  destruct (files w !! manifest_path inst rp) as [[data|text]|]; try done.
  intros Hfrom.
  destruct data as [| | | | |data]; try done.
  destruct (existsb is_None
      [ dict_get data "name"; dict_get data "distributionId";
        dict_get data "creationDate"; dict_get data "updateDate";
        dict_get data "relativePath" ]) eqn:Hex.
  { unfold from_dict in Hfrom. by rewrite Hex in Hfrom. }
  pose proof (proj1 (required_present data) Hex) as Hall.
  rewrite (from_dict_eval _ _ _ Hall) in Hfrom.
  apply init_inv in Hfrom as (n & Hn & Hname & Hi & Hd & Hr & Hc & Hu & _).
  destruct Hu as [Hu _].
  { destruct (dict_get data "updateDate") eqn:Hud; try done.
    exfalso. apply (Hall "updateDate"); [unfold required_fields; set_solver|].
    done. }
  exists data, n. repeat split; done.
Qed.

(** X9: what a save that returns has done.  Whenever save returns, the
    Atom is a chroot Atom and one file has been written, the manifest in
    the Atom's directory, with the JSON document of to_dict: every other
    file, the environment, the clock and the temporary names are as
    before, and saving again changes nothing.  Nothing is said of a save
    that fails. *)
Theorem save_writes_one_file a w w' :
  save a w = (Ok (), w') →
  backend_of a = Chroot
  ∧ files w' !! manifest_path (_instance a) (relative_path a)
    = Some (Json (to_json (to_dict a)))
  ∧ (∀ p, p ≠ manifest_path (_instance a) (relative_path a) →
          files w' !! p = files w !! p)
  ∧ environ w' = environ w ∧ clock w' = clock w ∧ ticks w' = ticks w
  ∧ tmp_used w' = tmp_used w
  ∧ save a w' = (Ok (), w').
Proof.
  intros Hs.
  assert (Hb : backend_of a = Chroot).
  { destruct (backend_of a) eqn:Hb; [done|exfalso..];
      rewrite save_not_chroot in Hs by (rewrite Hb; done); done. }
  split; [done|].
  rewrite (save_chroot _ _ Hb) in Hs. injection Hs as <-.
  split; [apply lookup_insert_eq|].
  split; [intros p Hp; by apply lookup_insert_ne|].
  repeat (split; [done|]).
  rewrite (save_chroot _ _ Hb). f_equal.
  unfold with_file. simpl. f_equal. apply insert_insert_eq.
Qed.

(** The dict of a storable Atom is its own JSON document. *)
Lemma storable_to_json a :
  storable a = true → to_json (to_dict a) = to_dict a.
Proof.
  intros Hp. apply to_json_native. unfold storable in Hp.
  repeat (apply andb_true_iff in Hp as [Hp ?]).
  destruct a as [inst nm d rp cd ud cid img ss bt bi bf bx wr]; simpl in *.
  destruct d, rp, cd, ud; try done.
  destruct bt, bi, bf; try done.
  destruct bx as [| | |bx| |]; try done.
  unfold is_json_list in *. simpl in *.
  match goal with Hx : forallb json_native bx = true |- _ =>
    by rewrite Hx end.
Qed.

(** From the document of its own [to_dict], [from_dict] gives back a
    storable Atom, with its name trimmed. *)
Lemma from_dict_of_to_dict a w :
  storable a = true →
  ∃ a', from_dict (_instance a) (to_json (to_dict a)) w = (Ok a', w)
        ∧ _instance a' = _instance a
        ∧ name a' = strip (name a)
        ∧ distribution_id a' = distribution_id a
        ∧ relative_path a' = relative_path a
        ∧ creation_date a' = creation_date a
        ∧ update_date a' = update_date a
        ∧ bind_themes a' = bind_themes a
        ∧ bind_icons a' = bind_icons a
        ∧ bind_fonts a' = bind_fonts a
        ∧ bind_extra_mounts a' = bind_extra_mounts a
        ∧ container_id a' = PyNone ∧ container_image a' = PyNone
        ∧ __system_shell a' = false ∧ __distrobox_wrapper a' = None.
Proof.
  intros Hp. rewrite (storable_to_json a Hp). unfold storable in Hp.
  repeat (apply andb_true_iff in Hp as [Hp ?]).
  destruct a as [inst nm d rp cd ud cid img ss bt bi bf bx wr]; simpl in *.
  destruct cid; try done. destruct ss; try done.
  destruct d as [| |d| | |]; try done.
  destruct rp as [| |rp| | |]; try done.
  destruct cd as [| |cd| | |]; try done.
  destruct ud as [| |ud| | |]; try done.
  destruct bt as [|bt| | | |]; try done.
  destruct bi as [|bi| | | |]; try done.
  destruct bf as [|bf| | | |]; try done.
  destruct bx as [| | |bx| |]; try done.
  unfold to_dict, from_dict. simpl.
  unfold bind, of_result, __init__, str_strip, ret, bind. simpl.
  assert (Hor : py_or (PyList bx) (PyList []) = PyList bx)
    by (by destruct bx).
  rewrite Hor. eexists. split; [reflexivity|]. simpl. repeat split.
Qed.

(** X10: decoding what to_dict encodes.  For a storable Atom, a chroot
    Atom with strings for its identity fields, booleans for its flags and
    a list without tuples for its extra mounts, from_dict on the JSON
    document of to_dict gives an Atom with the same persisted fields, but
    for the name, which comes back trimmed; its container image is gone
    and it is storable again. *)
Theorem from_dict_inverts_to_dict a w :
  storable a = true →
  ∃ a', from_dict (_instance a) (to_json (to_dict a)) w = (Ok a', w)
        ∧ to_dict a' = to_dict (set_name (strip (name a)) a)
        ∧ container_image a' = PyNone
        ∧ storable a' = true
        ∧ (strip (name a) = name a → to_dict a' = to_dict a).
Proof.
  intros Hp.
  destruct (from_dict_of_to_dict a w Hp)
    as (a' & Hfrom & Hi & Hn & Hd & Hr & Hc & Hu & Hbt & Hbi & Hbf & Hbx
        & Hcid & Himg & Hss & Hwr).
  exists a'. split; [done|].
  assert (Hto : to_dict a' = to_dict (set_name (strip (name a)) a)).
  { unfold to_dict. simpl.
    by rewrite Hn, Hd, Hr, Hc, Hu, Hbt, Hbi, Hbf, Hbx. }
  split; [done|]. split; [done|]. split.
  - unfold storable in *.
    rewrite Hcid, Hss, Hd, Hr, Hc, Hu, Hbt, Hbi, Hbf, Hbx.
    repeat (apply andb_true_iff in Hp as [Hp ?]).
    repeat (apply andb_true_iff; split); done.
  - intros Htrim. rewrite Hto, Htrim. by destruct a.
Qed.

(** Loading what a storable Atom has saved. *)
Lemma load_saved a w :
  storable a = true →
  files w !! manifest_path (_instance a) (relative_path a)
  = Some (Json (to_json (to_dict a))) →
  ∃ a', load (_instance a) (relative_path a) w = (Ok a', w)
        ∧ name a' = strip (name a)
        ∧ distribution_id a' = distribution_id a
        ∧ relative_path a' = relative_path a
        ∧ creation_date a' = creation_date a
        ∧ update_date a' = update_date a
        ∧ bind_themes a' = bind_themes a
        ∧ bind_icons a' = bind_icons a
        ∧ bind_fonts a' = bind_fonts a
        ∧ bind_extra_mounts a' = bind_extra_mounts a.
Proof.
  intros Hp Hf. rewrite load_cases, Hf.
  destruct (from_dict_of_to_dict a w Hp)
    as (a' & Hfrom & _ & Hn & Hd & Hr & Hc & Hu & Hbt & Hbi & Hbf & Hbx & _).
  exists a'. by repeat split.
Qed.

(** X11: a bind-mount setter on a storable Atom saves, and a load of the
    manifest then returns the new flag with every other persisted field as
    it was (the name trimmed). *)
Theorem setter_then_load a status w :
  storable a = true →
  (∃ a1 w1 a',
     set_bind_themes status (a, w) = (Ok (), (a1, w1))
     ∧ load (_instance a) (relative_path a) w1 = (Ok a', w1)
     ∧ bind_themes a' = PyBool status
     ∧ bind_icons a' = bind_icons a ∧ bind_fonts a' = bind_fonts a
     ∧ bind_extra_mounts a' = bind_extra_mounts a
     ∧ name a' = strip (name a))
  ∧ (∃ a1 w1 a',
     set_bind_icons status (a, w) = (Ok (), (a1, w1))
     ∧ load (_instance a) (relative_path a) w1 = (Ok a', w1)
     ∧ bind_icons a' = PyBool status
     ∧ bind_themes a' = bind_themes a ∧ bind_fonts a' = bind_fonts a
     ∧ bind_extra_mounts a' = bind_extra_mounts a
     ∧ name a' = strip (name a))
  ∧ (∃ a1 w1 a',
     set_bind_fonts status (a, w) = (Ok (), (a1, w1))
     ∧ load (_instance a) (relative_path a) w1 = (Ok a', w1)
     ∧ bind_fonts a' = PyBool status
     ∧ bind_themes a' = bind_themes a ∧ bind_icons a' = bind_icons a
     ∧ bind_extra_mounts a' = bind_extra_mounts a
     ∧ name a' = strip (name a)).
Proof.
  intros Hp.
  assert (Hset : ∀ f : Atom → Atom,
    storable (f a) = true →
    _instance (f a) = _instance a → relative_path (f a) = relative_path a →
    ∃ w1 a',
      bind (assign f) (λ _, on_self save) (a, w) = (Ok (), (f a, w1))
      ∧ load (_instance a) (relative_path a) w1 = (Ok a', w1)
      ∧ name a' = strip (name (f a))
      ∧ bind_themes a' = bind_themes (f a)
      ∧ bind_icons a' = bind_icons (f a)
      ∧ bind_fonts a' = bind_fonts (f a)
      ∧ bind_extra_mounts a' = bind_extra_mounts (f a)).
  { intros f Hpf Hi Hr.
    assert (Hb : backend_of (f a) = Chroot).
    { unfold storable in Hpf.
      repeat (apply andb_true_iff in Hpf as [Hpf ?]).
      unfold backend_of. destruct (container_id (f a)); try done.
      by destruct (__system_shell (f a)). }
    destruct (load_saved (f a)
                (with_file (manifest_path (_instance (f a))
                                          (relative_path (f a)))
                           (Json (to_json (to_dict (f a)))) w) Hpf)
      as (a' & Hload & Hn & _ & _ & _ & _ & Hbt & Hbi & Hbf & Hbx);
      [apply lookup_insert_eq|].
    exists (with_file (manifest_path (_instance (f a)) (relative_path (f a)))
                      (Json (to_json (to_dict (f a)))) w), a'.
    split.
    { unfold bind, assign, modify, on_self. cbn [fst snd].
      by rewrite (save_chroot _ _ Hb). }
    rewrite <- Hi, <- Hr at 1. by repeat split. }
  unfold storable in Hp.
  split; [|split].
  - destruct (Hset (set_bind_themes_attr (PyBool status)))
      as (w1 & a' & Hs & Hl & Hn & Hbt & Hbi & Hbf & Hbx); try done.
    { unfold storable. simpl.
      repeat (apply andb_true_iff in Hp as [Hp ?]).
      repeat (apply andb_true_iff; split); done. }
    exists (set_bind_themes_attr (PyBool status) a), w1, a'.
    by repeat split.
  - destruct (Hset (set_bind_icons_attr (PyBool status)))
      as (w1 & a' & Hs & Hl & Hn & Hbt & Hbi & Hbf & Hbx); try done.
    { unfold storable. simpl.
      repeat (apply andb_true_iff in Hp as [Hp ?]).
      repeat (apply andb_true_iff; split); done. }
    exists (set_bind_icons_attr (PyBool status) a), w1, a'.
    by repeat split.
  - destruct (Hset (set_bind_fonts_attr (PyBool status)))
      as (w1 & a' & Hs & Hl & Hn & Hbt & Hbi & Hbf & Hbx); try done.
    { unfold storable. simpl.
      repeat (apply andb_true_iff in Hp as [Hp ?]).
      repeat (apply andb_true_iff; split); done. }
    exists (set_bind_fonts_attr (PyBool status) a), w1, a'.
    by repeat split.
Qed.

(** X12: rename on a storable Atom stores the new name as given and saves
    it, and a load of the manifest returns the new name trimmed: the
    object and its manifest agree on the name exactly when the new name
    has no white space around it. *)
Theorem rename_then_load a new_name w :
  storable a = true →
  ∃ a1 w1 a',
    rename new_name (a, w) = (Ok (), (a1, w1))
    ∧ name a1 = new_name
    ∧ load (_instance a) (relative_path a) w1 = (Ok a', w1)
    ∧ name a' = strip new_name
    ∧ (name a' = name a1 ↔ strip new_name = new_name)
    ∧ distribution_id a' = distribution_id a
    ∧ update_date a' = update_date a.
Proof.
  intros Hp.
  assert (Hp1 : storable (set_name new_name a) = true) by done.
  assert (Hb : backend_of a = Chroot).
  { unfold storable in Hp.
    repeat (apply andb_true_iff in Hp as [Hp ?]).
    unfold backend_of. destruct (container_id a); try done.
    by destruct (__system_shell a). }
  assert (Hg : is_distrobox_container a || __system_shell a = false).
  { unfold backend_of, is_distrobox_container in *.
    destruct (negb (is_None (container_id a))); [done|].
    by destruct (__system_shell a). }
  unfold rename, bind, gets, assign, modify, on_self. simpl.
  rewrite Hg. simpl. rewrite save_chroot by done. simpl.
  destruct (load_saved (set_name new_name a)
              (with_file (manifest_path (_instance a) (relative_path a))
                 (Json (to_json (to_dict (set_name new_name a)))) w) Hp1)
    as (a' & Hload & Hn & Hd & _ & _ & Hu & _); [apply lookup_insert_eq|].
  simpl in *.
  eexists _, _, a'. split; [reflexivity|]. simpl.
  split; [done|]. split; [done|]. split; [done|].
  rewrite Hn. by repeat split.
Qed.

End MoreLoadSave.

(** ** Paths and commands *)

Lemma append_assoc a b c : (a +:+ b) +:+ c = a +:+ (b +:+ c).
Proof.
  induction a as [|x a IH]; [done|].
  by rewrite !append_String, IH.
Qed.

(** A path that [os.path.join] ends with a name does not end with a
    separator and is not empty. *)
Lemma join_name_tail a c tail :
  endswith_sep (a +:+ String c tail) = endswith_sep (String c tail)
  ∧ String.eqb (a +:+ String c tail) "" = false.
Proof.
  induction a as [|x a [IH1 IH2]].
  - by rewrite !append_empty.
  - rewrite append_String. split; [|done].
    rewrite <- IH1.
    destruct a as [|y a]; [by rewrite append_empty|].
    by rewrite append_String.
Qed.

Section MoreCommands.
Context `{Collaborators}.

Implicit Types (self a : Atom) (w : World) (inst : AtomsInstance).

(** X13: the paths of an Atom nest.  Of a chroot Atom, fs_path is path
    with chroot joined on, root_path is fs_path followed by /root and the
    manifest is path with atom.json joined on; of any other Atom all three
    paths are the empty string. *)
Theorem paths_nest a :
  (backend_of a = Chroot →
   fs_path a = os_path_join (path a) "chroot"
   ∧ (∃ sep, (sep = "" ∨ sep = "/") ∧ fs_path a = path a +:+ sep +:+ "chroot")
   ∧ root_path a = fs_path a +:+ "/root"
   ∧ manifest_path (_instance a) (relative_path a)
     = os_path_join (path a) "atom.json")
  ∧ (backend_of a ≠ Chroot →
     path a = "" ∧ fs_path a = "" ∧ root_path a = "").
Proof.
  split.
  - intros Hb. pose proof (chroot_guard a Hb) as Hg.
    set (p := get_atom_path (config (_instance a)) (relative_path a)).
    assert (Hpath : path a = p) by (unfold path; by rewrite Hg).
    assert (Hfs : fs_path a = os_path_join p "chroot")
      by (unfold fs_path; by rewrite Hg).
    assert (Hroot : root_path a = os_path_join (fs_path a) "root")
      by (unfold root_path; by rewrite Hg).
    rewrite Hpath. split; [done|]. split; [|split; [|done]].
    + rewrite Hfs. unfold os_path_join. simpl startswith_sep. cbv iota.
      destruct (String.eqb p "" || endswith_sep p).
      * exists "". split; [by left|]. by rewrite append_empty.
      * exists "/". split; [by right|]. done.
    + assert (Hc : ∃ q, fs_path a = q +:+ "chroot").
      { rewrite Hfs. unfold os_path_join. simpl startswith_sep. cbv iota.
        destruct (String.eqb p "" || endswith_sep p); [by exists p|].
        exists (p +:+ "/"). by rewrite append_assoc. }
      destruct Hc as [q Hq]. rewrite Hroot, Hq.
      destruct (join_name_tail q "c" "hroot") as [He Hn].
      unfold os_path_join. simpl startswith_sep. cbv iota.
      by rewrite Hn, He.
  - intros Hb. pose proof (not_chroot_guard a Hb) as Hg.
    unfold path, fs_path, root_path. by rewrite Hg.
Qed.

(** The three back ends leave the world as it is. *)
Lemma backend_branch_pure a cmd env w r w' :
  match backend_of a with
  | ManagedContainer => __generate_distrobox_command a cmd env
  | PassThroughShell => __generate_system_shell_command a
  | Chroot => __generate_proot_command a cmd env
  end w = (r, w') →
  w' = w.
Proof.
  destruct (backend_of a);
    unfold __generate_proot_command, __generate_distrobox_command,
      __generate_system_shell_command, bind, of_result, os_environ, ret,
      throw;
    [ destruct (bind_mounts a)
    | destruct (__distrobox_wrapper a)
    | destruct (environ w !! "SHELL") ];
    simpl; by intros [= _ <-].
Qed.

Lemma tracked_cases a cmd env w :
  match generate_command a cmd env false w with
  | (Ok (c, e, wd), w0) =>
      w0 = w
      ∧ generate_command a cmd env true w
        = (Ok ("sh" :: tmp_names w (tmp_used w) :: c, e, wd), with_launcher w)
  | (Err x, w0) =>
      w0 = w ∧ generate_command a cmd env true w = (Err x, w)
  end.
Proof.
  rewrite !generate_command_by_backend. unfold bind.
  destruct (match backend_of a with
            | Chroot => __generate_proot_command a cmd env
            | ManagedContainer => __generate_distrobox_command a cmd env
            | PassThroughShell => __generate_system_shell_command a
            end w) as [[[[c0 e0] wd0]|x0] w0] eqn:Hbr;
    apply backend_branch_pure in Hbr as ->; simpl; done.
Qed.

(** X14: track_exit only adds the launcher.  Without it generate_command
    leaves the world as it is.  With it, a call that without it returns
    (command, environment, directory) returns the same behind sh and a
    new temporary file that holds the launcher script, and a call that
    without it raises raises the same, with no temporary file made.  So
    enter_command is untracked_enter_command behind the launcher. *)
Theorem track_exit_adds_launcher a cmd env w :
  (∀ r w', generate_command a cmd env false w = (r, w') → w' = w)
  ∧ (∀ c e wd,
       fst (generate_command a cmd env false w) = Ok (c, e, wd) →
       generate_command a cmd env true w
       = (Ok ("sh" :: tmp_names w (tmp_used w) :: c, e, wd), with_launcher w))
  ∧ (∀ x,
       fst (generate_command a cmd env false w) = Err x →
       generate_command a cmd env true w = (Err x, w))
  ∧ (∀ c e wd,
       fst (untracked_enter_command a w) = Ok (c, e, wd) →
       enter_command a w
       = (Ok ("sh" :: tmp_names w (tmp_used w) :: c, e, wd), with_launcher w)).
Proof.
  pose proof (tracked_cases a cmd env w) as Hc.
  pose proof (tracked_cases a [] None w) as He.
  unfold enter_command, untracked_enter_command.
  destruct (generate_command a cmd env false w) as [[[[c0 e0] wd0]|x0] w0];
    destruct (generate_command a [] None false w) as [[[[c1 e1] wd1]|x1] w1];
    destruct Hc as [-> Hc], He as [-> He]; simpl;
    repeat split; try done;
    try (by intros ? ? [= <- <-]); try (by intros ? ? ? [= <- <- <-]);
    try (by intros ? [= <-]).
Qed.

(** X15: on a pass-through shell generate_command does not look at the
    command or the environment it is given: it returns the shell of
    os.environ alone, no environment and the root directory, and without
    SHELL in the environment it raises KeyError, with no temporary file
    made, track_exit or not. *)
Theorem pass_through_command a cmd env te w :
  backend_of a = PassThroughShell →
  (∀ shell, environ w !! "SHELL" = Some shell →
     generate_command a cmd env false w = (Ok ([shell], [], "/"), w)
     ∧ generate_command a cmd env true w
       = (Ok (["sh"; tmp_names w (tmp_used w); shell], [], "/"),
          with_launcher w))
  ∧ (environ w !! "SHELL" = None →
     generate_command a cmd env te w = (Err (KeyError "SHELL"), w)).
Proof.
  intros Hb. split.
  - intros shell Hs.
    rewrite !generate_command_by_backend, Hb.
    unfold bind, __generate_system_shell_command, bind, os_environ, ret.
    by rewrite Hs.
  - intros Hs.
    rewrite generate_command_by_backend, Hb.
    unfold bind, __generate_system_shell_command, bind, os_environ.
    by rewrite Hs.
Qed.

(** X16: on a chroot Atom generate_command gives the proot wrapper the
    Atom's fs_path, the command and the resolved bind mounts, in the order
    themes, icons, fonts, extra; the environment is the one given, or
    empty, and the working directory is root_path.  When the bind mounts
    cannot be resolved the TypeError comes through and no temporary file
    is made. *)
Theorem chroot_command a cmd env te w :
  backend_of a = Chroot →
  (∀ mounts, bind_mounts a = Ok mounts →
     generate_command a cmd env te w
     = (Ok ((if te then ["sh"; tmp_names w (tmp_used w)] else [])
            ++ get_proot_command_for_chroot (fs_path a) cmd mounts,
            default [] env, root_path a),
        if te then with_launcher w else w))
  ∧ (∀ e, bind_mounts a = Err e →
     generate_command a cmd env te w = (Err e, w)).
Proof.
  intros Hb. split.
  - intros mounts Hm.
    rewrite generate_command_by_backend, Hb.
    unfold bind, __generate_proot_command, bind, of_result, ret.
    rewrite Hm. by destruct te.
  - intros e Hm.
    rewrite generate_command_by_backend, Hb.
    unfold bind, __generate_proot_command, bind, of_result.
    by rewrite Hm.
Qed.

(** X17: new_system_shell always returns an Atom, after one reading of the
    clock: a pass-through shell named system-shell, whose update date is
    that reading, whose aid is None, whose paths are empty, that has no
    distrobox wrapper and that save refuses. *)
Theorem new_system_shell_atom inst w :
  ∃ a w',
    new_system_shell inst w = (Ok a, w')
    ∧ name a = "system-shell"
    ∧ backend_of a = PassThroughShell
    ∧ is_system_shell a = true ∧ is_distrobox_container a = false
    ∧ update_date a = PyStr (clock w (ticks w)) ∧ ticks w' = S (ticks w)
    ∧ creation_date a = PyNone
    ∧ aid a = PyNone
    ∧ path a = "" ∧ fs_path a = "" ∧ root_path a = ""
    ∧ __distrobox_wrapper a = None
    ∧ (∀ w0, ∃ e, save a w0 = (Err e, w0)).
Proof.
  eexists _, _. split; [reflexivity|]. simpl.
  repeat (split; [done|]). intros w0. eexists. reflexivity.
Qed.

(** X18: load_from_container on a name and a container id that are
    strings returns an Atom of the managed-container back end whose aid is
    the container id, with no relativePath or distributionId, the flags
    false and no extra mounts.  With a non-empty id the update date is a
    reading of the clock and the Atom has its wrapper; with the empty
    string for an id the update date is the creation date, the clock is
    not read and there is no wrapper. *)
Theorem load_from_container_atom inst cd n img cid w :
  ∃ a w',
    load_from_container inst cd (PyStr n) img (PyStr cid) w = (Ok a, w')
    ∧ name a = strip n
    ∧ backend_of a = ManagedContainer
    ∧ aid a = PyStr cid
    ∧ container_image a = img ∧ creation_date a = cd
    ∧ relative_path a = PyNone ∧ distribution_id a = PyNone
    ∧ bind_mounts a = Ok []
    ∧ constructed a
    ∧ if String.eqb cid ""
      then update_date a = cd ∧ w' = w ∧ __distrobox_wrapper a = None
      else update_date a = PyStr (clock w (ticks w))
           ∧ ticks w' = S (ticks w)
           ∧ __distrobox_wrapper a = Some DistroboxWrapper_.
Proof.
  unfold load_from_container, __init__, bind, str_strip, now, ret.
  simpl. destruct (String.eqb cid "") eqn:Hc; simpl;
    eexists _, _; (split; [reflexivity|]); simpl;
    unfold constructed; simpl; rewrite ?Hc; done.
Qed.

(** X21: a container id that is there but empty.  The constructor makes
    the wrapper only for a truthy container id, while generate_command
    takes the distrobox branch for any container id that is not None: on
    an Atom built with such an id, the empty string, generate_command
    raises AttributeError for every command, and makes no temporary
    file. *)
Theorem falsy_container_id_command a cmd env te w :
  constructed a →
  is_distrobox_container a = true →
  truthy (container_id a) = false →
  generate_command a cmd env te w
  = (Err (AttributeError "_Atom__distrobox_wrapper"), w).
Proof.
  intros Hc Hd Hcid. unfold constructed in Hc. rewrite Hcid in Hc.
  unfold generate_command, __generate_distrobox_command, bind, throw.
  by rewrite Hd, Hc.
Qed.

End MoreCommands.

(** ** Destroy, kill, stop *)

Section MoreLifecycle.
Context `{Collaborators} `{Effects}.

Implicit Types (self a : Atom) (s : World * Outside).

(** X19: the methods that go through the distrobox wrapper need it.  On an
    Atom built without a container id, or with the empty string for one,
    stop_distrobox_container raises AttributeError, and so do destroy and
    kill when the Atom is no chroot, as a pass-through shell is: nothing
    is asked of the container runtime and nothing is removed.  And on
    every Atom that is no chroot, kill is stop_distrobox_container. *)
Theorem lifecycle_needs_wrapper a s :
  (constructed a → truthy (container_id a) = false →
   stop_distrobox_container a s
   = (Err (AttributeError "_Atom__distrobox_wrapper"), s)
   ∧ (backend_of a ≠ Chroot →
      destroy a s = (Err (AttributeError "_Atom__distrobox_wrapper"), s)
      ∧ kill a s = (Err (AttributeError "_Atom__distrobox_wrapper"), s)))
  ∧ (backend_of a ≠ Chroot → kill a s = stop_distrobox_container a s).
Proof.
  split.
  - intros Hc Hcid. unfold constructed in Hc. rewrite Hcid in Hc.
    unfold stop_distrobox_container, destroy, kill, the_distrobox_wrapper,
      bind, throw.
    rewrite Hc. split; [done|]. intros Hb.
    by rewrite (not_chroot_guard _ Hb).
  - intros Hb. unfold kill, stop_distrobox_container.
    by rewrite (not_chroot_guard _ Hb).
Qed.

(** X20: kill on a chroot Atom raises NameError before it looks for a
    process: the module never imports ProcUtils, the name line 382 uses.
    No process is looked up or killed, whatever the collaborators do. *)
Theorem kill_chroot_raises_NameError a s :
  backend_of a = Chroot →
  kill a s = (Err (NameError "ProcUtils"), s)
  ∧ is_bound "ProcUtils" = false.
Proof.
  intros Hb. unfold kill. by rewrite (chroot_guard _ Hb).
Qed.

(** On a chroot Atom destroy is FileUtils.native_rm on the Atom's
    directory; on an Atom built with a non-empty container id it is the
    wrapper's destroy_container on that id and the Atom's name. *)
Lemma destroy_by_backend a s :
  (backend_of a = Chroot →
   destroy a s
   = native_rm (get_atom_path (config (_instance a)) (relative_path a)) s)
  ∧ (constructed a → truthy (container_id a) = true →
     destroy a s = destroy_container (container_id a) (name a) s
     ∧ kill a s = stop_container (container_id a) s).
Proof.
  split.
  - intros Hb. unfold destroy, path. by rewrite (chroot_guard _ Hb).
  - intros Hc Hcid. unfold constructed in Hc. rewrite Hcid in Hc.
    assert (Hd : is_distrobox_container a = true).
    { unfold is_distrobox_container. by destruct (container_id a). }
    unfold destroy, kill, the_distrobox_wrapper, bind, ret.
    rewrite Hd, Hc. simpl.
    split.
    + by destruct (destroy_container (container_id a) (name a) s) as [[]].
    + by destruct (stop_container (container_id a) s) as [[]].
Qed.

End MoreLifecycle.

Lemma lifecycle_needs_wrapper_witness :
  constructed Sample.system_shell
  ∧ truthy (container_id Sample.system_shell) = false
  ∧ backend_of Sample.system_shell ≠ Chroot
  ∧ destroy (H0 := SampleHost.effects) Sample.system_shell (Sample.world, [])
    = (Err (AttributeError "_Atom__distrobox_wrapper"), (Sample.world, [])).
Proof.
  split; [reflexivity|]. split; [reflexivity|]. split; [done|].
  destruct (proj1 (lifecycle_needs_wrapper (H0 := SampleHost.effects)
                     Sample.system_shell (Sample.world, []))
              eq_refl eq_refl) as [_ Hd].
  destruct Hd as [Hd _]; [done|]. exact Hd.
Defined.

Lemma kill_chroot_raises_NameError_witness :
  backend_of Sample.chroot = Chroot
  ∧ kill (H0 := SampleHost.effects) Sample.chroot (Sample.world, [])
    = (Err (NameError "ProcUtils"), (Sample.world, [])).
Proof.
  split; [reflexivity|].
  apply (kill_chroot_raises_NameError (H0 := SampleHost.effects)). reflexivity.
Defined.

Example destroy_samples :
  backend_of Sample.chroot = Chroot
  ∧ destroy (H0 := SampleHost.effects) Sample.chroot (Sample.world, [])
    = (Ok (), (Sample.world, ["rm /atoms/1f0e.atom"]))
  ∧ constructed Sample.container
  ∧ truthy (container_id Sample.container) = true
  ∧ destroy (H0 := SampleHost.effects) Sample.container (Sample.world, [])
    = (Ok (), (Sample.world, ["destroy box"])).
Proof.
  split; [reflexivity|]. split.
  - rewrite (proj1 (destroy_by_backend (H0 := SampleHost.effects)
                      Sample.chroot (Sample.world, [])) eq_refl).
    reflexivity.
  - split; [reflexivity|]. split; [reflexivity|].
    destruct (proj2 (destroy_by_backend (H0 := SampleHost.effects)
                       Sample.container (Sample.world, []))
                eq_refl eq_refl) as [Hd _].
    rewrite Hd. reflexivity.
Qed.

(** ** The creation workflows *)

Section MoreWorkflows.
Context `{Collaborators} `{Effects} `{!ImageUtils}.

Implicit Types (a atom : Atom) (w : World) (h : Host) (inst : AtomsInstance).

Lemma enqueue_nil h : enqueue [] h = h.
Proof. destruct h. unfold enqueue. simpl. by rewrite app_nil_r. Qed.

Lemma enqueue_enqueue l1 l2 h : enqueue l2 (enqueue l1 h) = enqueue (l1 ++ l2) h.
Proof. unfold enqueue. simpl. by rewrite app_assoc. Qed.

Lemma if_fn_eq fn arg h : if_fn fn arg h = (Ok (), enqueue (calls fn arg) h).
Proof. destruct fn; [done|]. simpl. unfold ret. by rewrite enqueue_nil. Qed.

Lemma bind_if_fn {A} fn arg (k : unit → M Host A) h :
  bind (if_fn fn arg) k h = k () (enqueue (calls fn arg) h).
Proof. unfold bind. by rewrite if_fn_eq. Qed.

(** A collaborator of the environment leaves the queue and the uuids. *)
Lemma in_env_frame {A} (m : M (World * Outside) A) h r h' :
  in_env m h = (r, h') →
  main_queue h' = main_queue h ∧ uuid4s h' = uuid4s h
  ∧ uuid_used h' = uuid_used h.
Proof.
  unfold in_env. destruct (m (world h, outside h)) as [r0 [w0 o0]].
  by intros [= _ <-].
Qed.

Lemma in_env_in_world {A} (m : M World A) h :
  in_env (in_world m) h
  = (fst (m (world h)), set_world (snd (m (world h))) h).
Proof.
  unfold in_env, in_world. simpl. by destruct (m (world h)).
Qed.

(** X22: new_container when the container cannot be made.  If the wrapper
    raises AtomsFailToCreateContainer, new_container returns None: the
    first stage of distrobox_fn has been handed over, then the one message
    for error_fn, each if the callback was given; the second stage and the
    finalizing stages never are, the clock is not read and no uuid is
    taken.  Any other exception of the wrapper comes through. *)
Theorem new_container_failure inst name image distrobox_fn finalizing_fn
    error_fn h args s1 :
  distrobox_new_container name image (world h, outside h)
  = (Err (Raised "AtomsFailToCreateContainer" args), s1) →
  ∃ h', new_container inst name image distrobox_fn finalizing_fn error_fn h
        = (Ok None, h')
        ∧ main_queue h'
          = main_queue h ++ calls distrobox_fn (Stage 0)
            ++ calls error_fn
                 (Message "Fail to create container, it might be a temporary problem or a wrong image was requested.")
        ∧ world h' = fst s1 ∧ outside h' = snd s1
        ∧ uuid_used h' = uuid_used h.
Proof.
  intros Hnew. unfold new_container.
  rewrite bind_if_fn. unfold bind at 1, try_except. unfold bind at 1.
  unfold in_env at 1. simpl. rewrite Hnew. simpl.
  rewrite bind_if_fn. unfold ret. simpl.
  eexists. split; [reflexivity|]. simpl.
  by rewrite <- app_assoc.
Qed.

(** X23: new_container when the container is made.  With a string for a
    name and a non-empty string for the id the wrapper returns,
    new_container returns an Atom of the managed-container back end with
    that id and the given image, built with its wrapper; the creation date
    and the update date are two successive readings of the clock; and the
    stages handed over are, in order, distrobox 0, distrobox 1,
    finalizing 0, finalizing 1, for the callbacks that were given. *)
Theorem new_container_success inst n image distrobox_fn finalizing_fn
    error_fn h cid s1 :
  distrobox_new_container (PyStr n) image (world h, outside h)
  = (Ok (PyStr cid), s1) →
  cid ≠ "" →
  ∃ atom h',
    new_container inst (PyStr n) image distrobox_fn finalizing_fn error_fn h
    = (Ok (Some atom), h')
    ∧ name atom = strip n
    ∧ container_id atom = PyStr cid ∧ container_image atom = image
    ∧ backend_of atom = ManagedContainer
    ∧ constructed atom ∧ truthy (container_id atom) = true
    ∧ creation_date atom = PyStr (clock (fst s1) (ticks (fst s1)))
    ∧ update_date atom = PyStr (clock (fst s1) (S (ticks (fst s1))))
    ∧ ticks (world h') = S (S (ticks (fst s1)))
    ∧ main_queue h'
      = main_queue h ++ calls distrobox_fn (Stage 0)
        ++ calls distrobox_fn (Stage 1)
        ++ calls finalizing_fn (Stage 0) ++ calls finalizing_fn (Stage 1).
Proof.
  intros Hnew Hcid. apply String.eqb_neq in Hcid.
  unfold new_container.
  rewrite bind_if_fn. unfold bind at 1, try_except. unfold bind at 1.
  unfold in_env at 1. simpl. rewrite Hnew. simpl.
  rewrite !bind_if_fn.
  unfold bind at 1. rewrite in_env_in_world. simpl.
  unfold bind at 1. rewrite in_env_in_world. simpl.
  unfold load_from_container, __init__, bind, now, str_strip, ret. simpl.
  rewrite Hcid. simpl. rewrite if_fn_eq. simpl.
  eexists _, _. split; [reflexivity|]. simpl.
  unfold constructed. simpl. rewrite Hcid. simpl.
  repeat (split; [done|]).
  by rewrite <- !app_assoc.
Qed.

End MoreWorkflows.

Section MoreNew.
Context `{Collaborators} `{Effects} `{!ImageUtils}.

Implicit Types (a atom : Atom) (w : World) (h : Host) (inst : AtomsInstance).

(** X24: new when there is no image.  If get_image raises one of the four
    exceptions of lines 170-187, new returns None, and all it has done
    since is to hand error_fn, if given, the one message of that
    exception: the world and what lies beyond it are as get_image left
    them, so no directory was made and no manifest written, the clock was
    not read and no uuid taken.  Any other exception comes through. *)
Theorem new_image_failure inst name dist arch rel download_fn config_fn
    unpack_fn finalizing_fn error_fn h cls args h1 :
  get_image inst dist arch rel download_fn h = (Err (Raised cls args), h1) →
  let returns_none_after msg :=
    new inst name dist arch rel download_fn config_fn unpack_fn
        finalizing_fn error_fn h
    = (Ok None, enqueue (calls error_fn (Message msg)) h1) in
  (cls = "AtomsHashMissmatchError" → returns_none_after "Hash missmatch.")
  ∧ (cls = "AtomsFailToDownloadImage" →
     returns_none_after
       "Fail to download image, it might be a temporary problem.")
  ∧ (cls = "AtomsUnreachableRemote" →
     returns_none_after
       "Unreachable remote, it might be a temporary problem.")
  ∧ (cls = "AtomsMisconfiguredDistribution" →
     returns_none_after (misconfigured_str args))
  ∧ (cls ∉ [ "AtomsHashMissmatchError"; "AtomsFailToDownloadImage";
             "AtomsUnreachableRemote"; "AtomsMisconfiguredDistribution" ] →
     new inst name dist arch rel download_fn config_fn unpack_fn
         finalizing_fn error_fn h
     = (Err (Raised cls args), h1)).
Proof.
  intros Hget returns_none_after. unfold returns_none_after.
  repeat split; intros Hcls; unfold new;
    unfold bind at 1, try_except; unfold bind at 1; rewrite Hget;
    try (rewrite Hcls; simpl; rewrite bind_if_fn; reflexivity).
  assert (Hne : ∀ c, c ∈ [ "AtomsHashMissmatchError";
                            "AtomsFailToDownloadImage";
                            "AtomsUnreachableRemote";
                            "AtomsMisconfiguredDistribution" ] →
                     String.eqb cls c = false).
  { intros c Hc. apply String.eqb_neq. intros Heq. subst. contradiction. }
  rewrite !Hne by set_solver. done.
Qed.

(** The constructor as [new] calls it. *)
Lemma init_chroot_eval inst name d rp cd bt bi bf bx w :
  __init__ inst name d rp cd PyNone PyNone PyNone false bt bi bf bx w
  = match name with
    | PyStr n =>
        (Ok {| _instance := inst; name := strip n;
               distribution_id := d; relative_path := rp;
               creation_date := cd; update_date := cd;
               container_id := PyNone; container_image := PyNone;
               __system_shell := false;
               bind_themes := bt; bind_icons := bi; bind_fonts := bf;
               bind_extra_mounts := py_or bx (PyList []);
               __distrobox_wrapper := None |}, w)
    | _ => (Err (AttributeError "strip"), w)
    end.
Proof.
  unfold __init__, bind, str_strip, ret, throw. simpl.
  by destruct name.
Qed.

(** What a run of [new] that returns an Atom went through. *)
Lemma new_success_inv inst name dist arch rel download_fn config_fn
    unpack_fn finalizing_fn error_fn h atom h' :
  new inst name dist arch rel download_fn config_fn unpack_fn
      finalizing_fn error_fn h = (Ok (Some atom), h') →
  ∃ image h1 n w_saved,
    get_image inst dist arch rel download_fn h = (Ok image, h1)
    ∧ name = PyStr n
    ∧ atom = {| _instance := inst; name := strip n;
                distribution_id := PyStr (AtomDistribution.distribution_id dist);
                relative_path := PyStr (uuid4s h1 (uuid_used h1) +:+ ".atom");
                creation_date := PyStr (clock (world h1) (ticks (world h1)));
                update_date := PyStr (clock (world h1) (ticks (world h1)));
                container_id := PyNone; container_image := PyNone;
                __system_shell := false;
                bind_themes := PyBool false; bind_icons := PyBool false;
                bind_fonts := PyBool false; bind_extra_mounts := PyList [];
                __distrobox_wrapper := None |}
    ∧ world h'
      = with_file (manifest_path inst (relative_path atom))
                  (Json (to_json (to_dict atom))) w_saved
    ∧ main_queue h'
      = main_queue h1 ++ calls config_fn (Stage 0)
        ++ calls config_fn (Stage 1)
        ++ calls unpack_fn (Stage 0) ++ calls unpack_fn (Stage 1)
        ++ calls finalizing_fn (Stage 0) ++ calls finalizing_fn (Stage 1)
    ∧ uuid_used h' = S (uuid_used h1).
Proof.
  unfold new. unfold bind at 1, try_except. unfold bind at 1.
  destruct (get_image inst dist arch rel download_fn h)
    as [[image|e] h1] eqn:Hget.
  2:{ destruct e as [| | | | | |cls args]; try done.
      repeat (destruct (String.eqb cls _);
              [simpl; rewrite bind_if_fn; done|]).
      done. }
  simpl. rewrite bind_if_fn.
  unfold bind at 1. rewrite in_env_in_world. simpl.
  unfold bind at 1, uuid4 at 1. simpl.
  unfold bind at 1. rewrite in_env_in_world.
  rewrite init_chroot_eval.
  destruct name as [| |n| | |]; try done. simpl.
  set (atom0 := {| _instance := inst; name := strip n |}).
  set (h2 := set_world _ _).
  unfold bind at 1.
  destruct (in_env (os_makedirs _ false) h2) as [[[]|?] h3] eqn:H3; [|done].
  rewrite !bind_if_fn.
  unfold bind at 1.
  destruct (in_env (unpack image _) _) as [[[]|?] h4] eqn:H4; [|done].
  unfold bind at 1.
  destruct (in_env (os_makedirs _ true) h4) as [[[]|?] h5] eqn:H5; [|done].
  rewrite !bind_if_fn.
  unfold bind at 1.
  destruct (in_env (install_to_path _) _) as [[[]|?] h6] eqn:H6; [|done].
  rewrite !bind_if_fn.
  unfold bind at 1.
  destruct (in_env (AtomDistribution.post_unpack dist _) _)
    as [[[]|?] h7] eqn:H7; [|done].
  unfold bind at 1.
  destruct ((if String.eqb (AtomDistribution.distribution_id dist) "ubuntu"
             then in_env (in_world (trust_sources _)) else ret ()) h7)
    as [[[]|?] h8] eqn:H8; [|done].
  unfold bind at 1. rewrite in_env_in_world.
  rewrite save_chroot by done. simpl.
  rewrite bind_if_fn. unfold ret.
  intros [= <- <-].
  exists image, h1, n, (world h8).
  split; [done|]. split; [done|]. split; [done|]. split; [done|].
  apply in_env_frame in H3 as (Q3 & _ & U3).
  apply in_env_frame in H4 as (Q4 & _ & U4).
  apply in_env_frame in H5 as (Q5 & _ & U5).
  apply in_env_frame in H6 as (Q6 & _ & U6).
  apply in_env_frame in H7 as (Q7 & _ & U7).
  assert (main_queue h8 = main_queue h7 ∧ uuid_used h8 = uuid_used h7)
    as [Q8 U8].
  { destruct (String.eqb (AtomDistribution.distribution_id dist) "ubuntu").
    - by apply in_env_frame in H8 as (? & _ & ?).
    - by injection H8 as <-. }
  simpl in *. split.
  - rewrite Q8, Q7, Q6, Q5, Q4, Q3. by rewrite <- !app_assoc.
  - by rewrite U8, U7, U6, U5, U4, U3.
Qed.

(** X25: an Atom that new returns is on disk.  It is a chroot Atom with
    the trimmed name, the distribution's id, a relativePath made of a uuid
    and .atom, that is also its aid, one reading of the clock for both
    dates, the flags false and no extra mounts; its manifest is in the
    world new leaves, and loading it from there returns that very Atom. *)
Theorem new_atom_is_saved inst name dist arch rel download_fn config_fn
    unpack_fn finalizing_fn error_fn h atom h' :
  new inst name dist arch rel download_fn config_fn unpack_fn
      finalizing_fn error_fn h = (Ok (Some atom), h') →
  (∃ n uuid date,
     name = PyStr n ∧ Atom.name atom = strip n
     ∧ relative_path atom = PyStr (uuid +:+ ".atom")
     ∧ distribution_id atom = PyStr (AtomDistribution.distribution_id dist)
     ∧ creation_date atom = PyStr date ∧ update_date atom = PyStr date)
  ∧ backend_of atom = Chroot ∧ aid atom = relative_path atom
  ∧ bind_mounts atom = Ok []
  ∧ persistable atom = true
  ∧ files (world h') !! manifest_path inst (relative_path atom)
    = Some (Json (to_dict atom))
  ∧ load inst (relative_path atom) (world h') = (Ok atom, world h').
Proof.
  intros Hnew.
  apply new_success_inv in Hnew
    as (image & h1 & n & w_saved & _ & -> & -> & Hw & _ & _).
  split; [by eexists _, _, _|].
  split; [done|]. split; [done|]. split; [done|].
  assert (Hp : persistable
    {| _instance := inst; name := strip n;
       distribution_id := PyStr (AtomDistribution.distribution_id dist);
       relative_path := PyStr (uuid4s h1 (uuid_used h1) +:+ ".atom");
       creation_date := PyStr (clock (world h1) (ticks (world h1)));
       update_date := PyStr (clock (world h1) (ticks (world h1)));
       container_id := PyNone; container_image := PyNone;
       __system_shell := false;
       bind_themes := PyBool false; bind_icons := PyBool false;
       bind_fonts := PyBool false; bind_extra_mounts := PyList [];
       __distrobox_wrapper := None |} = true).
  { unfold persistable. simpl. by rewrite strip_idem, String.eqb_refl. }
  split; [done|].
  rewrite Hw. simpl relative_path. split.
  - unfold with_file. simpl files. by rewrite lookup_insert_eq.
  - rewrite load_cases. unfold with_file at 1. simpl files.
    rewrite lookup_insert_eq.
    unfold to_dict, from_dict. simpl.
    unfold bind, of_result, __init__, str_strip, ret, bind. simpl.
    by rewrite strip_idem.
Qed.

(** X26: the stages new hands over.  On a run that returns an Atom the
    calls handed to the main context after get_image are, in this order,
    config 0, config 1, unpack 0, unpack 1, finalizing 0, finalizing 1,
    for the callbacks that were given and no others: error_fn is never
    called; and exactly one uuid was taken. *)
Theorem new_stages_in_order inst name dist arch rel download_fn config_fn
    unpack_fn finalizing_fn error_fn h atom h' :
  new inst name dist arch rel download_fn config_fn unpack_fn
      finalizing_fn error_fn h = (Ok (Some atom), h') →
  ∃ image h1,
    get_image inst dist arch rel download_fn h = (Ok image, h1)
    ∧ main_queue h'
      = main_queue h1 ++ calls config_fn (Stage 0)
        ++ calls config_fn (Stage 1)
        ++ calls unpack_fn (Stage 0) ++ calls unpack_fn (Stage 1)
        ++ calls finalizing_fn (Stage 0) ++ calls finalizing_fn (Stage 1)
    ∧ uuid_used h' = S (uuid_used h1)
    ∧ relative_path atom = PyStr (uuid4s h1 (uuid_used h1) +:+ ".atom").
Proof.
  intros Hnew.
  apply new_success_inv in Hnew
    as (image & h1 & n & w_saved & Hget & _ & -> & _ & Hq & Hu).
  by exists image, h1.
Qed.

End MoreNew.

(** ** The further properties on the sample objects *)

Lemma bind_mounts_by_extra_mounts_witness :
  ∃ a w,
    __init__ Sample.instance (PyStr "bare") PyNone (PyStr "bare.atom") PyNone
      PyNone PyNone PyNone false (PyBool true) (PyBool false) (PyBool false)
      (PyBool true) Sample.world = (Ok a, w)
    ∧ bind_extra_mounts a = PyBool true
    ∧ bind_mounts a = Err (TypeError "'bool' object is not iterable")
    ∧ bind_mounts Sample.chroot
      = Ok [themes_mount; PyList [PyStr "/srv"; PyStr "/mnt"]].
Proof.
  eexists _, _. split; [vm_compute; reflexivity|].
  split; [reflexivity|]. split.
  - apply (proj1 (bind_mounts_by_extra_mounts _)). reflexivity.
  - exact (proj1 (proj2 (proj2 (bind_mounts_by_extra_mounts Sample.chroot)))
             [PyList [PyStr "/srv"; PyStr "/mnt"]] (or_introl eq_refl)).
Defined.

Lemma from_dict_complete_witness :
  (∀ k, k ∈ required_fields → dict_get Sample.old_manifest k ≠ PyNone)
  ∧ dict_get Sample.old_manifest "name" = PyStr "test"
  ∧ ∃ a, from_dict Sample.instance (PyDict Sample.old_manifest) Sample.world
         = (Ok a, Sample.world)
         ∧ name a = "test"
         ∧ bind_themes a = PyBool false
         ∧ bind_extra_mounts a = PyList [].
Proof.
  assert (Hall : ∀ k, k ∈ required_fields →
                      dict_get Sample.old_manifest k ≠ PyNone).
  { intros k Hk. unfold required_fields in Hk.
    repeat (apply elem_of_cons in Hk as [->|Hk]); try done.
    by apply elem_of_nil in Hk. }
  split; [exact Hall|]. split; [reflexivity|].
  destruct (from_dict_complete Sample.instance Sample.old_manifest
              Sample.world "test" Hall eq_refl)
    as (a & Hfrom & _ & Hn & _ & _ & _ & _ & Hbt & _ & _ & Hbx & _).
  exists a. split; [exact Hfrom|]. split; [exact Hn|].
  split; [exact Hbt | exact Hbx].
Defined.

Lemma from_dict_raises_only_witness :
  from_dict Sample.instance (PyList []) Sample.world
  = (Err (AttributeError "get"), Sample.world)
  ∧ (AttributeError "get" = Raised "AtomsWrongAtomData" [PyList []]
     ∨ (AttributeError "get" = AttributeError "get"
        ∧ ∀ d, PyList [] ≠ PyDict d)
     ∨ (AttributeError "get" = AttributeError "strip"
        ∧ ∃ d, PyList [] = PyDict d ∧ is_str (dict_get d "name") = false)).
Proof.
  split; [reflexivity|].
  exact (proj2 (from_dict_raises_only Sample.instance (PyList [])
                  Sample.world _ _ eq_refl) _ eq_refl).
Defined.

Lemma load_read_only_witness :
  ∃ r w', load Sample.instance (PyStr "gone.atom") Sample.world = (r, w')
          ∧ w' = Sample.world.
Proof.
  eexists _, _. split; [vm_compute; reflexivity|].
  apply (load_read_only Sample.instance (PyStr "gone.atom") Sample.world
           (Err (Raised "AtomsConfigFileNotFound"
                   [PyStr "/atoms/gone.atom/atom.json"]))).
  vm_compute. reflexivity.
Defined.

Lemma load_by_manifest_witness :
  let w := with_file "/atoms/torn.atom/atom.json" (Text "{") Sample.world in
  files w !! manifest_path Sample.instance (PyStr "torn.atom")
  = Some (Text "{")
  ∧ load Sample.instance (PyStr "torn.atom") w = (Err JSONDecodeError, w)
  ∧ files w !! manifest_path Sample.instance (PyStr "gone.atom") = None
  ∧ fst (load Sample.instance (PyStr "gone.atom") w)
    = Err (Raised "AtomsConfigFileNotFound"
             [PyStr "/atoms/gone.atom/atom.json"]).
Proof.
  intros w.
  assert (Hf : files w !! manifest_path Sample.instance (PyStr "torn.atom")
               = Some (Text "{")) by (vm_compute; reflexivity).
  assert (Hg : files w !! manifest_path Sample.instance (PyStr "gone.atom")
               = None) by (vm_compute; reflexivity).
  split; [exact Hf|]. split.
  - exact (proj1 (proj2 (load_by_manifest Sample.instance (PyStr "torn.atom")
                           w)) "{" Hf).
  - split; [exact Hg|].
    exact (proj2 (proj1 (load_by_manifest Sample.instance (PyStr "gone.atom")
                           w)) Hg).
Defined.

Lemma load_returns_the_record_witness :
  let w := with_file "/atoms/moved.atom/atom.json"
             (Json (PyDict Sample.old_manifest)) Sample.world in
  ∃ a, load Sample.instance (PyStr "moved.atom") w = (Ok a, w)
       ∧ relative_path a = PyStr "1f0e.atom".
Proof.
  intros w.
  assert (Hrun : ∃ a, load Sample.instance (PyStr "moved.atom") w = (Ok a, w)).
  { eexists. vm_compute. reflexivity. }
  destruct Hrun as [a Hrun]. exists a. split; [exact Hrun|].
  destruct (load_returns_the_record _ _ _ _ _ Hrun)
    as (data & n & Hf & _ & _ & Hr & _).
  assert (Hd : data = Sample.old_manifest).
  { assert (Hw : files w !! manifest_path Sample.instance (PyStr "moved.atom")
                 = Some (Json (PyDict Sample.old_manifest)))
      by (vm_compute; reflexivity).
    rewrite Hw in Hf. by injection Hf. }
  rewrite Hr, Hd. reflexivity.
Defined.

Lemma save_writes_one_file_witness :
  ∃ w', save Sample.chroot Sample.world = (Ok (), w')
        ∧ backend_of Sample.chroot = Chroot
        ∧ files w' !! "/atoms/other.atom/atom.json" = None
        ∧ save Sample.chroot w' = (Ok (), w').
Proof.
  assert (Hrun : ∃ w', save Sample.chroot Sample.world = (Ok (), w')).
  { eexists. vm_compute. reflexivity. }
  destruct Hrun as [w' Hs]. exists w'. split; [exact Hs|].
  destruct (save_writes_one_file Sample.chroot Sample.world w' Hs)
    as (Hb & _ & Hframe & _ & _ & _ & _ & Hagain).
  split; [exact Hb|]. split; [|exact Hagain].
  rewrite Hframe; [reflexivity|]. vm_compute. discriminate.
Defined.

Lemma from_dict_inverts_to_dict_witness :
  storable Sample.chroot = true
  ∧ ∃ a', from_dict Sample.instance (to_json (to_dict Sample.chroot))
            Sample.world = (Ok a', Sample.world)
          ∧ to_dict a' = to_dict Sample.chroot.
Proof.
  split; [reflexivity|].
  destruct (from_dict_inverts_to_dict Sample.chroot Sample.world eq_refl)
    as (a' & Hfrom & _ & _ & _ & Hto).
  exists a'. split; [exact Hfrom|]. apply Hto. reflexivity.
Defined.

Lemma setter_then_load_witness :
  storable Sample.chroot = true
  ∧ ∃ a1 w1 a',
      set_bind_icons true (Sample.chroot, Sample.world) = (Ok (), (a1, w1))
      ∧ load Sample.instance (PyStr "1f0e.atom") w1 = (Ok a', w1)
      ∧ bind_icons a' = PyBool true ∧ bind_themes a' = PyBool true.
Proof.
  split; [reflexivity|].
  destruct (setter_then_load Sample.chroot true Sample.world eq_refl)
    as (_ & (a1 & w1 & a' & Hset & Hload & Hbi & Hbt & _) & _).
  exists a1, w1, a'. split; [exact Hset|]. split; [exact Hload|].
  split; [exact Hbi | exact Hbt].
Defined.

Lemma rename_then_load_witness :
  storable Sample.chroot = true
  ∧ ∃ a1 w1 a',
      rename " x " (Sample.chroot, Sample.world) = (Ok (), (a1, w1))
      ∧ name a1 = " x "
      ∧ load Sample.instance (PyStr "1f0e.atom") w1 = (Ok a', w1)
      ∧ name a' = "x".
Proof.
  split; [reflexivity|].
  destruct (rename_then_load Sample.chroot " x " Sample.world eq_refl)
    as (a1 & w1 & a' & Hren & Hn1 & Hload & Hn & _).
  exists a1, w1, a'. split; [exact Hren|]. split; [exact Hn1|].
  split; [exact Hload | exact Hn].
Defined.

Lemma paths_nest_witness :
  backend_of Sample.chroot = Chroot
  ∧ root_path Sample.chroot = "/atoms/1f0e.atom/chroot/root"
  ∧ backend_of Sample.container ≠ Chroot
  ∧ fs_path Sample.container = "".
Proof.
  split; [reflexivity|]. split.
  - destruct (proj1 (paths_nest Sample.chroot) eq_refl)
      as (Hfs & _ & Hroot & _).
    rewrite Hroot, Hfs. reflexivity.
  - split; [done|].
    destruct (proj2 (paths_nest Sample.container)) as (_ & Hfs & _); [done|].
    exact Hfs.
Defined.

Lemma track_exit_adds_launcher_witness :
  fst (untracked_enter_command Sample.chroot Sample.world)
  = Ok (["proot"; "-0"; "-r"; "/atoms/1f0e.atom/chroot"], [],
        "/atoms/1f0e.atom/chroot/root")
  ∧ enter_command Sample.chroot Sample.world
    = (Ok (["sh"; "/tmp/tmp0"; "proot"; "-0"; "-r"; "/atoms/1f0e.atom/chroot"],
           [], "/atoms/1f0e.atom/chroot/root"),
       with_launcher Sample.world).
Proof.
  split; [reflexivity|].
  exact (proj2 (proj2 (proj2 (track_exit_adds_launcher Sample.chroot [] None
                                Sample.world))) _ _ _ eq_refl).
Defined.

Lemma pass_through_command_witness :
  backend_of Sample.system_shell = PassThroughShell
  ∧ environ Sample.world !! "SHELL" = Some "/bin/sh"
  ∧ generate_command Sample.system_shell ["ls"; "-l"] (Some ["A=1"]) false
      Sample.world
    = (Ok (["/bin/sh"], [], "/"), Sample.world).
Proof.
  split; [reflexivity|]. split; [vm_compute; reflexivity|].
  apply (proj1 (pass_through_command Sample.system_shell ["ls"; "-l"]
                  (Some ["A=1"]) false Sample.world eq_refl) "/bin/sh").
  vm_compute. reflexivity.
Defined.

Lemma chroot_command_witness :
  backend_of Sample.chroot = Chroot
  ∧ bind_mounts Sample.chroot
    = Ok [themes_mount; PyList [PyStr "/srv"; PyStr "/mnt"]]
  ∧ generate_command Sample.chroot ["ls"] None false Sample.world
    = (Ok (["proot"; "-0"; "-r"; "/atoms/1f0e.atom/chroot"; "ls"], [],
           "/atoms/1f0e.atom/chroot/root"), Sample.world).
Proof.
  split; [reflexivity|]. split; [reflexivity|].
  rewrite (proj1 (chroot_command Sample.chroot ["ls"] None false Sample.world
                    eq_refl) _ eq_refl).
  reflexivity.
Defined.

Lemma falsy_container_id_command_witness :
  ∃ a w, __init__ Sample.instance (PyStr "box") PyNone PyNone PyNone PyNone
           (PyStr "") (PyStr "alpine") false (PyBool false) (PyBool false)
           (PyBool false) PyNone Sample.world = (Ok a, w)
         ∧ constructed a ∧ is_distrobox_container a = true
         ∧ truthy (container_id a) = false
         ∧ generate_command a ["ls"] None true w
           = (Err (AttributeError "_Atom__distrobox_wrapper"), w).
Proof.
  eexists _, _. split; [reflexivity|].
  split; [reflexivity|]. split; [reflexivity|]. split; [reflexivity|].
  apply falsy_container_id_command; reflexivity.
Defined.

Lemma new_container_failure_witness :
  ∃ h', new_container (H0 := SampleHost.effects) Sample.instance
          (PyStr "box") (PyStr "no-such-image")
          (Some "on_distrobox") (Some "on_final") (Some "on_error")
          SampleHost.host
        = (Ok None, h')
        ∧ main_queue h'
          = [ ("on_distrobox", Stage 0);
              ("on_error",
               Message "Fail to create container, it might be a temporary problem or a wrong image was requested.") ].
Proof.
  destruct (new_container_failure (H0 := SampleHost.effects)
              Sample.instance (PyStr "box") (PyStr "no-such-image")
              (Some "on_distrobox") (Some "on_final") (Some "on_error")
              SampleHost.host [] (Sample.world, []) eq_refl)
    as (h' & Hnew & Hq & _).
  exists h'. split; [exact Hnew | exact Hq].
Defined.

Lemma new_container_success_witness :
  "c0ffee" ≠ ""
  ∧ ∃ atom h', new_container (H0 := SampleHost.effects) Sample.instance
                 (PyStr "box") (PyStr "alpine")
                 (Some "on_distrobox") (Some "on_final") None SampleHost.host
               = (Ok (Some atom), h')
               ∧ container_id atom = PyStr "c0ffee"
               ∧ main_queue h'
                 = [ ("on_distrobox", Stage 0); ("on_distrobox", Stage 1);
                     ("on_final", Stage 0); ("on_final", Stage 1) ].
Proof.
  split; [done|].
  destruct (new_container_success (H0 := SampleHost.effects)
              Sample.instance "box" (PyStr "alpine")
              (Some "on_distrobox") (Some "on_final") None
              SampleHost.host "c0ffee" (Sample.world, ["create"]) eq_refl)
    as (atom & h' & Hnew & _ & Hcid & _ & _ & _ & _ & _ & _ & _ & Hq);
    [done|].
  exists atom, h'. split; [exact Hnew|]. split; [exact Hcid | exact Hq].
Defined.

Lemma new_image_failure_witness :
  new (H1 := SampleHost.image_utils) Sample.instance (PyStr "web")
      SampleHost.ubuntu PyNone (PyStr "offline") None (Some "on_config")
      (Some "on_unpack") (Some "on_final") (Some "on_error") SampleHost.host
  = (Ok None,
     enqueue (calls (Some "on_error")
                (Message "Unreachable remote, it might be a temporary problem."))
             SampleHost.host).
Proof.
  apply (proj1 (proj2 (proj2
           (new_image_failure (H1 := SampleHost.image_utils) Sample.instance
              (PyStr "web") SampleHost.ubuntu PyNone (PyStr "offline") None
              (Some "on_config") (Some "on_unpack") (Some "on_final")
              (Some "on_error") SampleHost.host
              "AtomsUnreachableRemote" [] SampleHost.host eq_refl)))).
  reflexivity.
Defined.

Lemma new_atom_is_saved_witness :
  ∃ atom h',
    new (H1 := SampleHost.image_utils) Sample.instance (PyStr " web ")
        SampleHost.ubuntu PyNone (PyStr "jammy") None (Some "on_config")
        (Some "on_unpack") (Some "on_final") (Some "on_error") SampleHost.host
    = (Ok (Some atom), h')
    ∧ name atom = "web"
    ∧ relative_path atom = PyStr "7d1a-0.atom"
    ∧ load Sample.instance (relative_path atom) (world h')
      = (Ok atom, world h').
Proof.
  assert (Hrun : ∃ atom h',
    new (H1 := SampleHost.image_utils) Sample.instance (PyStr " web ")
        SampleHost.ubuntu PyNone (PyStr "jammy") None (Some "on_config")
        (Some "on_unpack") (Some "on_final") (Some "on_error") SampleHost.host
    = (Ok (Some atom), h')
    ∧ name atom = "web" ∧ relative_path atom = PyStr "7d1a-0.atom").
  { eexists _, _. split; [vm_compute; reflexivity|]. split; reflexivity. }
  destruct Hrun as (atom & h' & Hrun & Hn & Hr).
  exists atom, h'. split; [exact Hrun|]. split; [exact Hn|].
  split; [exact Hr|].
  destruct (new_atom_is_saved _ _ _ _ _ _ _ _ _ _ _ _ _ Hrun)
    as (_ & _ & _ & _ & _ & _ & Hload).
  exact Hload.
Defined.

Lemma new_stages_in_order_witness :
  ∃ atom h',
    new (H1 := SampleHost.image_utils) Sample.instance (PyStr " web ")
        SampleHost.ubuntu PyNone (PyStr "jammy") None (Some "on_config")
        None (Some "on_final") (Some "on_error") SampleHost.host
    = (Ok (Some atom), h')
    ∧ main_queue h'
      = [ ("on_config", Stage 0); ("on_config", Stage 1);
          ("on_final", Stage 0); ("on_final", Stage 1) ].
Proof.
  assert (Hrun : ∃ atom h',
    new (H1 := SampleHost.image_utils) Sample.instance (PyStr " web ")
        SampleHost.ubuntu PyNone (PyStr "jammy") None (Some "on_config")
        None (Some "on_final") (Some "on_error") SampleHost.host
    = (Ok (Some atom), h')).
  { eexists _, _. vm_compute. reflexivity. }
  destruct Hrun as (atom & h' & Hrun).
  exists atom, h'. split; [exact Hrun|].
  destruct (new_stages_in_order _ _ _ _ _ _ _ _ _ _ _ _ _ Hrun)
    as (image & h1 & Hget & Hq & _).
  injection Hget as _ <-. exact Hq.
Defined.

(** The workaround for ubuntu, on the sources list the sample image
    unpacks. *)
Example trust_sources_sample :
  let path := "/atoms/7d1a-0.atom/chroot/etc/apt/sources.list" in
  ∃ w, trust_sources (H0 := SampleHost.effects) "/atoms/7d1a-0.atom/chroot"
         (with_file path
            (Text "deb http://archive.ubuntu.com/ubuntu jammy main")
            Sample.world) = (Ok (), w)
       ∧ files w !! path
         = Some (Text "deb [trusted=yes] http://archive.ubuntu.com/ubuntu jammy main").
Proof. intros path. eexists. split; vm_compute; reflexivity. Qed.
